(** * SQL Query Assistant: safety gate, prompt builder, chat persistence and
      the stage machine of the Streamlit controller

    Shallow embedding of [database/db_connector.py], [sql_agent/sql_assistant.py]
    and [app.py].  Texts are Rocq strings; the case mappings and the
    whitespace class of Python's [str] are the ones of the ASCII range. *)

From Stdlib Require Import Ascii String ZArith Lia Bool.
From stdpp Require Import base option list strings gmap sorting.

Local Open Scope stdpp_scope.

(** * Part I: the program *)

(** ** Python's string builtins, on ASCII text *)

Definition nl : string := String (ascii_of_nat 10) EmptyString.

Definition is_ascii_lower (c : ascii) : bool :=
  (97 <=? nat_of_ascii c) && (nat_of_ascii c <=? 122).

Definition is_ascii_upper (c : ascii) : bool :=
  (65 <=? nat_of_ascii c) && (nat_of_ascii c <=? 90).

Definition is_ascii_digit (c : ascii) : bool :=
  (48 <=? nat_of_ascii c) && (nat_of_ascii c <=? 57).

Definition upper_char (c : ascii) : ascii :=
  if is_ascii_lower c then ascii_of_nat (nat_of_ascii c - 32) else c.

Definition lower_char (c : ascii) : ascii :=
  if is_ascii_upper c then ascii_of_nat (nat_of_ascii c + 32) else c.

Fixpoint string_map (f : ascii -> ascii) (s : string) : string :=
  match s with
  | EmptyString => EmptyString
  | String c s' => String (f c) (string_map f s')
  end.

(** [s.upper()] and [s.lower()] *)
Definition upper (s : string) : string := string_map upper_char s.

Definition lower (s : string) : string := string_map lower_char s.

(** The characters [str.strip()] removes: TAB, LF, VT, FF, CR, the four
    separators FS, GS, RS, US, and the blank. *)
Definition is_space (c : ascii) : bool :=
  ((9 <=? nat_of_ascii c) && (nat_of_ascii c <=? 13))
  || ((28 <=? nat_of_ascii c) && (nat_of_ascii c <=? 32)).

Fixpoint lstrip (s : string) : string :=
  match s with
  | EmptyString => EmptyString
  | String c s' => if is_space c then lstrip s' else s
  end.

(** Dropping trailing blanks: a character stays when something that stays
    follows it, or when it is not a blank itself. *)
Fixpoint rstrip (s : string) : string :=
  match s with
  | EmptyString => EmptyString
  | String c s' =>
      match rstrip s' with
      | EmptyString => if is_space c then EmptyString else String c EmptyString
      | t => String c t
      end
  end.

(** [s.strip()] *)
Definition strip (s : string) : string := rstrip (lstrip s).

(** [s.startswith(p)] and [s.startswith((p1, ..., pn))] *)
Definition startswith (s p : string) : bool := String.prefix p s.

Definition startswith_any (s : string) (ps : list string) : bool :=
  existsb (startswith s) ps.

(** [needle in hay] *)
Fixpoint contains (needle hay : string) : bool :=
  String.prefix needle hay ||
  match hay with
  | EmptyString => false
  | String _ hay' => contains needle hay'
  end.

(** Truthiness of a string, as in [if s:] *)
Definition truthy (s : string) : bool :=
  match s with EmptyString => false | _ => true end.

(** [s[n:]] *)
Fixpoint string_drop (n : nat) (s : string) : string :=
  match n, s with
  | S n', String _ s' => string_drop n' s'
  | _, _ => s
  end.

(** ** database/db_connector.py *)

Definition FORBIDDEN_KEYWORDS : list string :=
  ["DELETE"; "UPDATE"; "ALTER"; "DROP"; "INSERT"; "TRUNCATE"; "CREATE"].

Definition is_query_safe (query : string) : bool :=
  let upper_query := upper query in
  negb (existsb (fun keyword => contains keyword upper_query) FORBIDDEN_KEYWORDS).

(** Results of calls that may raise. *)
Inductive exc (A : Type) : Type :=
| Ok (a : A)
| Raise (e : string).
Arguments Ok {A} a.
Arguments Raise {A} e.

(** *** Values a driver hands back *)

(** A naive [datetime.datetime]. *)
Record datetime : Type := Datetime
  { dt_year : nat; dt_month : nat; dt_day : nat;
    dt_hour : nat; dt_minute : nat; dt_second : nat; dt_microsecond : nat }.

(** Objects that [json] has no encoding for: a datetime, or anything else
    (a [Decimal], a [date], ...), known by the text of its type. *)
Inductive pyobject : Type :=
| ODatetime (d : datetime)
| OOther (type_repr : string).

Inductive cell : Type :=
| CNone
| CBool (b : bool)
| CInt (z : Z)
| CStr (s : string)
| CObj (o : pyobject).

(** One record of [DataFrame.to_dict(orient="records")]: column name to value,
    in column order. *)
Definition row : Type := list (string * cell).
Definition records : Type := list row.

(** [DBConnector.execute_query] works on a raw cursor: [execute] may raise;
    [fetchall] may raise; [description] may be missing. *)
Record cursor_reply : Type := CursorReply
  { fetchall : exc (list (list cell));
    description : option (list string) }.

Inductive fetched : Type :=
| FetchedTuples (rows : list (list cell))
| FetchedDicts (rows : records).

(** [dict(zip(cols, row))]: a later value for a repeated column replaces the
    earlier one in place. *)
Fixpoint dict_set (k : string) (v : cell) (d : row) : row :=
  match d with
  | [] => [(k, v)]
  | (k', v') :: d' => if String.eqb k k' then (k, v) :: d' else (k', v') :: dict_set k v d'
  end.

Definition dict_of_pairs (kvs : list (string * cell)) : row :=
  fold_left (fun d kv => dict_set (fst kv) (snd kv) d) kvs [].

(** The second component lists the statements handed to [cursor.execute]. *)
Definition execute_query (cursor_execute : string -> exc cursor_reply) (query : string)
  : exc (option fetched) * list string :=
  if negb (is_query_safe query) then
    (Raise "Query rejected: Write operations are not allowed.", [])
  else
    match cursor_execute query with
    | Raise e => (Raise e, [query])
    | Ok cur =>
        match fetchall cur with
        | Ok results =>
            match description cur with
            | Some ((_ :: _) as cols) =>
                (Ok (Some (FetchedDicts
                             (map (fun r => dict_of_pairs (combine cols r)) results))),
                 [query])
            | _ => (Ok (Some (FetchedTuples results)), [query])
            end
        | Raise _ => (Ok None, [query])
        end
    end.

(** ** Messages of a chat *)

Record message : Type := Message
  { role : string;
    content : string;
    result : option records;
    show_plot : option bool }.

Definition user_message (text : string) : message :=
  {| role := "user"; content := text; result := None; show_plot := None |}.

Definition assistant_message (text : string) : message :=
  {| role := "assistant"; content := text; result := None; show_plot := None |}.

Definition assistant_result (text : string) (res : records) (plot : bool) : message :=
  {| role := "assistant"; content := text; result := Some res; show_plot := Some plot |}.

(** ** sql_agent/sql_assistant.py *)

Definition render_message (prompt : string) (msg : message) : string :=
  if String.eqb (role msg) "user" then
    prompt +:+ ("User: " +:+ content msg +:+ nl)
  else if String.eqb (role msg) "assistant" then
    prompt +:+ ("Assistant SQL: " +:+ content msg +:+ nl)
  else prompt.

(** [l[-n:]] *)
Definition last_n {A : Type} (n : nat) (l : list A) : list A :=
  drop (length l - n) l.

Definition build_prompt (user_question : string) (feedback : option string)
    (previous_messages : option (list message)) : string :=
  let prompt := "" in
  let prompt :=
    match previous_messages with
    | Some ((_ :: _) as msgs) => fold_left render_message (last_n 5 msgs) prompt
    | _ => prompt
    end in
  let prompt := prompt +:+ (nl +:+ "User: " +:+ user_question +:+ nl) in
  let prompt :=
    match feedback with
    | Some f => if truthy f then prompt +:+ ("Feedback: " +:+ f +:+ nl) else prompt
    | None => prompt
    end in
  prompt +:+ "Generate an appropriate SQL query to answer the user.".

Definition generate_sql_with_feedback (vn_generate_sql : string -> exc string)
    (question : string) (feedback : option string)
    (previous_messages : option (list message)) : string * exc string :=
  let prompt := build_prompt question feedback previous_messages in
  (prompt, vn_generate_sql prompt).

(** ** app.py: serialization *)

#[local] Unset Elimination Schemes.
Inductive json : Type :=
| JNull
| JBool (b : bool)
| JInt (z : Z)
| JStr (s : string)
| JArr (items : list json)
| JObj (fields : list (string * json)).
#[local] Set Elimination Schemes.

Definition digit_char (n : nat) : ascii := ascii_of_nat (48 + n mod 10).

(** [n] printed on [width] decimal digits, zero padded. *)
Fixpoint zero_padded (width n : nat) (acc : string) : string :=
  match width with
  | 0 => acc
  | S w => zero_padded w (n / 10) (String (digit_char n) acc)
  end.

(** [d.isoformat()] *)
Definition isoformat (d : datetime) : string :=
  zero_padded 4 (dt_year d) "" +:+ "-" +:+ zero_padded 2 (dt_month d) "" +:+ "-"
  +:+ zero_padded 2 (dt_day d) "" +:+ "T" +:+ zero_padded 2 (dt_hour d) "" +:+ ":"
  +:+ zero_padded 2 (dt_minute d) "" +:+ ":" +:+ zero_padded 2 (dt_second d) ""
  +:+ (if Nat.eqb (dt_microsecond d) 0 then ""
       else "." +:+ zero_padded 6 (dt_microsecond d) "").

Definition serialize_datetime (obj : pyobject) : exc string :=
  match obj with
  | ODatetime d => Ok (isoformat d)
  | OOther type_repr => Raise ("Type " +:+ type_repr +:+ " not serializable")
  end.

Definition exc_bind {A B : Type} (x : exc A) (k : A -> exc B) : exc B :=
  match x with
  | Ok a => k a
  | Raise e => Raise e
  end.

(** Left to right, stopping at the first failure. *)
Fixpoint exc_map {A B : Type} (f : A -> exc B) (l : list A) : exc (list B) :=
  match l with
  | [] => Ok []
  | x :: l' =>
      exc_bind (f x) (fun y => exc_bind (exc_map f l') (fun ys => Ok (y :: ys)))
  end.

(** [json.dump(..., default=serialize_datetime)] on the values of a chat. *)
Definition dump_cell (c : cell) : exc json :=
  match c with
  | CNone => Ok JNull
  | CBool b => Ok (JBool b)
  | CInt z => Ok (JInt z)
  | CStr s => Ok (JStr s)
  | CObj o => exc_bind (serialize_datetime o) (fun s => Ok (JStr s))
  end.

Definition dump_row (r : row) : exc json :=
  exc_bind (exc_map (fun kv => exc_bind (dump_cell (snd kv)) (fun v => Ok (fst kv, v))) r)
           (fun fields => Ok (JObj fields)).

Definition dump_message (m : message) : exc json :=
  exc_bind
    (match result m with
     | Some rows => exc_bind (exc_map dump_row rows) (fun js => Ok [("result", JArr js)])
     | None => Ok []
     end)
    (fun res =>
       Ok (JObj ([("role", JStr (role m)); ("content", JStr (content m))]
                 ++ res
                 ++ match show_plot m with
                    | Some b => [("show_plot", JBool b)]
                    | None => []
                    end))).

Definition dump_session (title : string) (messages : list message) : exc json :=
  exc_bind (exc_map dump_message messages)
           (fun js => Ok (JObj [("title", JStr title); ("messages", JArr js)])).

(** [json.load] gives a dict whose later value wins for a repeated key. *)
Fixpoint json_get (k : string) (fields : list (string * json)) : option json :=
  match fields with
  | [] => None
  | (k', v) :: rest =>
      match json_get k rest with
      | Some v' => Some v'
      | None => if String.eqb k k' then Some v else None
      end
  end.

Fixpoint option_map_all {A B : Type} (f : A -> option B) (l : list A) : option (list B) :=
  match l with
  | [] => Some []
  | x :: l' =>
      match f x, option_map_all f l' with
      | Some y, Some ys => Some (y :: ys)
      | _, _ => None
      end
  end.

(** Reading a loaded value back as the dict the controller works with. *)
Definition load_cell (j : json) : option cell :=
  match j with
  | JNull => Some CNone
  | JBool b => Some (CBool b)
  | JInt z => Some (CInt z)
  | JStr s => Some (CStr s)
  | _ => None
  end.

Definition load_row (j : json) : option row :=
  match j with
  | JObj fields =>
      option_map_all (fun kv => match load_cell (snd kv) with
                                | Some c => Some (fst kv, c)
                                | None => None
                                end) fields
  | _ => None
  end.

Definition load_message (j : json) : option message :=
  match j with
  | JObj fields =>
      match json_get "role" fields, json_get "content" fields with
      | Some (JStr r), Some (JStr c) =>
          match
            match json_get "result" fields with
            | None | Some JNull => Some None
            | Some (JArr rows) =>
                match option_map_all load_row rows with
                | Some rs => Some (Some rs)
                | None => None
                end
            | Some _ => None
            end,
            match json_get "show_plot" fields with
            | None | Some JNull => Some None
            | Some (JBool b) => Some (Some b)
            | Some _ => None
            end
          with
          | Some res, Some plot =>
              Some {| role := r; content := c; result := res; show_plot := plot |}
          | _, _ => None
          end
      | _, _ => None
      end
  | _ => None
  end.

(** ** app.py: what persists between runs *)

(** A file under [chat_histories/]: a JSON document, or what an interrupted
    [json.dump] left behind. *)
Inductive chat_file : Type :=
| FileJson (doc : json)
| FileTruncated.

Record feedback_entry : Type := FeedbackEntry
  { fb_id : string;
    fb_user_question : string;
    fb_incorrect_sql : string;
    fb_feedback : string;
    fb_correct_sql : string }.

Inductive stage_t : Type :=
| ask_question
| show_query
| ask_feedback
| get_feedback.

(** [st.session_state], the directory [chat_histories/] keyed by session id,
    and [feedback.json] ([None] while the file does not exist). *)
Record app : Type := App
  { session_id : string;
    stage : stage_t;
    messages : list message;
    user_question : string;
    sql : string;
    query_result : option records;
    user_feedback : string;
    chat_histories : gmap string chat_file;
    feedback_json : option (list feedback_entry) }.

Definition with_session_id (v : string) (a : app) : app :=
  App v (stage a) (messages a) (user_question a) (sql a) (query_result a)
      (user_feedback a) (chat_histories a) (feedback_json a).
Definition with_stage (v : stage_t) (a : app) : app :=
  App (session_id a) v (messages a) (user_question a) (sql a) (query_result a)
      (user_feedback a) (chat_histories a) (feedback_json a).
Definition with_messages (v : list message) (a : app) : app :=
  App (session_id a) (stage a) v (user_question a) (sql a) (query_result a)
      (user_feedback a) (chat_histories a) (feedback_json a).
Definition with_user_question (v : string) (a : app) : app :=
  App (session_id a) (stage a) (messages a) v (sql a) (query_result a)
      (user_feedback a) (chat_histories a) (feedback_json a).
Definition with_sql (v : string) (a : app) : app :=
  App (session_id a) (stage a) (messages a) (user_question a) v (query_result a)
      (user_feedback a) (chat_histories a) (feedback_json a).
Definition with_query_result (v : option records) (a : app) : app :=
  App (session_id a) (stage a) (messages a) (user_question a) (sql a) v
      (user_feedback a) (chat_histories a) (feedback_json a).
Definition with_user_feedback (v : string) (a : app) : app :=
  App (session_id a) (stage a) (messages a) (user_question a) (sql a) (query_result a)
      v (chat_histories a) (feedback_json a).
Definition with_chat_histories (v : gmap string chat_file) (a : app) : app :=
  App (session_id a) (stage a) (messages a) (user_question a) (sql a) (query_result a)
      (user_feedback a) v (feedback_json a).
Definition with_feedback_json (v : option (list feedback_entry)) (a : app) : app :=
  App (session_id a) (stage a) (messages a) (user_question a) (sql a) (query_result a)
      (user_feedback a) (chat_histories a) v.

(** ** app.py: the outside world and what a run shows *)

(** The trained Vanna object and the uuid source, as one script run sees
    them: [generate_sql], [run_sql], and the [k]-th [uuid4()] of the run. *)
Record world : Type := World
  { vn_generate_sql : string -> exc string;
    vn_run_sql : string -> exc records;
    uuid4 : nat -> string }.

Inductive notice : Type :=
| st_error
| st_sidebar_error
| st_warning
| st_success
| st_toast.

Inductive effect : Type :=
| Generated (prompt : string) (reply : exc string)
| Executed (query : string) (reply : exc records)
| Shown (kind : notice) (text : string)
| Crashed (e : string).

(** ** app.py: one script run as a state machine step *)

(** How a statement ends: it falls through, an [Exception] propagates, or
    [st.rerun()] stops the run ([except Exception] does not catch that one). *)
Inductive control (A : Type) : Type :=
| Next (a : A)
| Raised (e : string)
| Rerun.
Arguments Next {A} a.
Arguments Raised {A} e.
Arguments Rerun {A}.

Record machine : Type := Machine
  { app_of : app;
    trace : list effect;
    uuid_calls : nat }.

Definition script (A : Type) : Type := machine -> control A * machine.

#[global] Instance script_ret : MRet script :=
  fun A a m => (Next a, m).

#[global] Instance script_bind : MBind script :=
  fun A B k c m =>
    match c m with
    | (Next a, m') => k a m'
    | (Raised e, m') => (Raised e, m')
    | (Rerun, m') => (Rerun, m')
    end.

Definition gets {A : Type} (f : app -> A) : script A :=
  fun m => (Next (f (app_of m)), m).

Definition modify (f : app -> app) : script unit :=
  fun m => (Next tt, Machine (f (app_of m)) (trace m) (uuid_calls m)).

Definition emit (e : effect) : script unit :=
  fun m => (Next tt, Machine (app_of m) (trace m ++ [e]) (uuid_calls m)).

Definition raise {A : Type} (e : string) : script A :=
  fun m => (Raised e, m).

Definition st_rerun : script unit :=
  fun m => (Rerun, m).

Definition try_except (body : script unit) (handler : string -> script unit) : script unit :=
  fun m =>
    match body m with
    | (Raised e, m') => handler e m'
    | r => r
    end.

Definition lift_exc {A : Type} (x : exc A) : script A :=
  match x with
  | Ok a => mret a
  | Raise e => raise e
  end.

Definition next_uuid (w : world) : script string :=
  fun m => (Next (uuid4 w (uuid_calls m)),
            Machine (app_of m) (trace m) (S (uuid_calls m))).

Definition show (kind : notice) (text : string) : script unit :=
  emit (Shown kind text).

(** *** Feedback storage *)

Definition append_feedback_to_json (w : world)
    (user_question incorrect_sql feedback_text correct_sql : string) : script unit :=
  id ← next_uuid w;
  let feedback_entry :=
    {| fb_id := id;
       fb_user_question := user_question;
       fb_incorrect_sql := incorrect_sql;
       fb_feedback := feedback_text;
       fb_correct_sql := correct_sql |} in
  modify (fun a => with_feedback_json
                     (Some (default [] (feedback_json a) ++ [feedback_entry])) a).

(** *** Chat history management *)

(** [next((m["content"] for m in messages if m["role"] == "user"), "Untitled Chat")] *)
Fixpoint chat_title (messages : list message) : string :=
  match messages with
  | [] => "Untitled Chat"
  | m :: rest => if String.eqb (role m) "user" then content m else chat_title rest
  end.

Definition write_chat (sid : string) (f : chat_file) : script unit :=
  modify (fun a => with_chat_histories (<[sid := f]> (chat_histories a)) a).

Definition save_chat_to_file (w : world) (messages : list message) (session_id : string)
  : script unit :=
  session_id ← (if truthy session_id then mret session_id
                else (fresh ← next_uuid w;
                      modify (with_session_id fresh);;
                      mret fresh));
  let title := chat_title messages in
  match dump_session title messages with
  | Ok doc => write_chat session_id (FileJson doc)
  | Raise e => write_chat session_id FileTruncated;; raise e
  end.

Definition load_chat (session_id : string) : script (list message) :=
  files ← gets chat_histories;
  match files !! session_id with
  | Some (FileJson (JObj fields)) =>
      match json_get "messages" fields with
      | Some (JArr items) =>
          match option_map_all load_message items with
          | Some msgs => mret msgs
          | None => raise "KeyError: message without role or content"
          end
      | Some _ => raise "TypeError: messages is not a list"
      | None => mret []
      end
  | Some (FileJson _) => raise "AttributeError: object has no attribute 'get'"
  | Some FileTruncated => raise "JSONDecodeError"
  | None => mret []
  end.

Definition delete_chat (session_id : string) : script unit :=
  modify (fun a => with_chat_histories (delete session_id (chat_histories a)) a).

(** *** Utility functions *)

Definition PLOT_WORDS : list string :=
  ["plot"; "chart"; "graph"; "visualize"; "draw"; "visualisation"].

Definition is_word_char (c : ascii) : bool :=
  is_ascii_lower c || is_ascii_upper c || is_ascii_digit c || Ascii.eqb c "_".

Definition at_word_boundary (rest : string) : bool :=
  match rest with
  | EmptyString => true
  | String c _ => negb (is_word_char c)
  end.

(** [re.search(r"\b(plot|chart|...)\b", s)]; [prev_is_word] tells whether the
    character before [s] is a word character. *)
Fixpoint search_plot_word (prev_is_word : bool) (s : string) : bool :=
  (negb prev_is_word
   && existsb (fun w => String.prefix w s
                        && at_word_boundary (string_drop (String.length w) s))
              PLOT_WORDS)
  || match s with
     | EmptyString => false
     | String c s' => search_plot_word (is_word_char c) s'
     end.

Definition user_wants_plot (question : string) : bool :=
  search_plot_word false (lower question).

Definition reset_to_ask_question : script unit :=
  modify (with_stage ask_question);;
  modify (with_user_question "");;
  modify (with_sql "");;
  modify (with_query_result None);;
  modify (with_user_feedback "").

(** [st.session_state.clear()], read together with the initialization block
    that every run starts with and that gives the missing keys their defaults. *)
Definition clear_session (a : app) : app :=
  App "" ask_question [] "" "" None "" (chat_histories a) (feedback_json a).

(** *** Calls to the trained model *)

Definition ask_vanna (w : world) (question : string) (feedback : option string)
    (previous_messages : option (list message)) : script string :=
  let '(prompt, reply) :=
    generate_sql_with_feedback (vn_generate_sql w) question feedback previous_messages in
  emit (Generated prompt reply);;
  lift_exc reply.

Definition run_sql (w : world) (query : string) : script records :=
  let reply := vn_run_sql w query in
  emit (Executed query reply);;
  lift_exc reply.

(** [sql.strip().lower().startswith(("select", "with", "show", "describe"))] *)
Definition SQL_PREFIXES : list string := ["select"; "with"; "show"; "describe"].

Definition starts_like_query (sql : string) : bool :=
  startswith_any (lower (strip sql)) SQL_PREFIXES.

Definition append_message (msg : message) : script unit :=
  modify (fun a => with_messages (messages a ++ [msg]) a).

Definition save_current (w : world) : script unit :=
  msgs ← gets messages;
  sid ← gets session_id;
  save_chat_to_file w msgs sid.

(** *** What the user did to start the run *)

Inductive event : Type :=
| NoEvent
| ClickNewChat
| ClickRunManualSQL (manual_sql : string)
| ClickLoad (chat_session_id : string)
| ClickDelete (chat_session_id : string)
| ChatInput (text : string)
| ClickYes
| ClickNo
| ClickSubmitFeedback (typed : string).

(** *** Sidebar *)

Definition sidebar_new_chat (w : world) (e : event) : script unit :=
  match e with
  | ClickNewChat =>
      modify clear_session;;
      id ← next_uuid w;
      modify (with_session_id id);;
      modify (with_messages []);;
      st_rerun
  | _ => mret tt
  end.

Definition sidebar_manual_sql (w : world) (e : event) : script unit :=
  match e with
  | ClickRunManualSQL manual_sql =>
      if is_query_safe manual_sql then
        try_except
          (manual_result ← run_sql w manual_sql;
           show st_success "Manual query executed successfully!";;
           append_message (user_message manual_sql);;
           append_message (assistant_result "Manual SQL Execution" manual_result
                                            (user_wants_plot manual_sql));;
           save_current w;;
           st_rerun)
          (fun e => show st_sidebar_error ("Error: " +:+ e))
      else
        show st_sidebar_error "Unsafe SQL detected. Only SELECT-like statements allowed."
  | _ => mret tt
  end.

(** [list_chats()] offers a chat when its file parses to a dict; which five
    files are the newest is left open, any readable one may be offered. *)
Definition listed (files : gmap string chat_file) (sid : string) : bool :=
  match files !! sid with
  | Some (FileJson (JObj _)) => true
  | _ => false
  end.

Definition sidebar_chat_history (e : event) : script unit :=
  match e with
  | ClickLoad sid =>
      files ← gets chat_histories;
      if listed files sid then
        modify (with_session_id sid);;
        msgs ← load_chat sid;
        modify (with_messages msgs);;
        st_rerun
      else mret tt
  | ClickDelete sid =>
      files ← gets chat_histories;
      if listed files sid then delete_chat sid;; st_rerun else mret tt
  | _ => mret tt
  end.

(** *** Question/SQL flow *)

Definition stage_ask_question (w : world) (e : event) : script unit :=
  match e with
  | ChatInput user_input =>
      if truthy user_input then
        if negb (is_query_safe user_input) then
          show st_error "Error: Queries with DELETE, UPDATE, DROP, INSERT, or other unsafe operations are not allowed."
        else
          modify (with_user_question user_input);;
          append_message (user_message user_input);;
          save_current w;;
          try_except
            (msgs ← gets messages;
             sql ← ask_vanna w user_input None (Some msgs);
             if negb (starts_like_query sql) then
               show st_error ("Generated text is not valid SQL:" +:+ nl +:+ nl +:+ sql)
             else
               modify (with_sql sql);;
               modify (with_stage show_query);;
               st_rerun)
            (fun e => show st_error ("Error: " +:+ e))
      else mret tt
  | _ => mret tt
  end.

(** Lines 232-241: drop the last message when it is an assistant message
    with this very SQL, then append the result message. *)
Definition pop_duplicate (messages : list message) (sql : string) : list message :=
  match last messages with
  | Some m =>
      if String.eqb (role m) "assistant" then
        if String.eqb (content m) sql then removelast messages else messages
      else messages
  | None => messages
  end.

Definition record_result (messages : list message) (sql : string)
    (result_df : records) (wants_plot : bool) : list message :=
  pop_duplicate messages sql ++ [assistant_result sql result_df wants_plot].

Definition stage_show_query (w : world) : script unit :=
  try_except
    (sql ← gets sql;
     result_df ← run_sql w sql;
     modify (with_query_result (Some result_df));;
     question ← gets user_question;
     let wants_plot := user_wants_plot question in
     modify (fun a => with_messages (record_result (messages a) sql result_df wants_plot) a);;
     save_current w;;
     modify (with_stage ask_feedback);;
     st_rerun)
    (fun e =>
       show st_error ("Error executing query: " +:+ e);;
       reset_to_ask_question).

Definition stage_ask_feedback (w : world) (e : event) : script unit :=
  (match e with
   | ClickYes =>
       show st_toast "Thanks for the feedback!";;
       reset_to_ask_question;;
       st_rerun
   | _ => mret tt
   end);;
  (match e with
   | ClickNo =>
       modify (with_stage get_feedback);;
       st_rerun
   | _ => mret tt
   end);;
  match e with
  | ChatInput next_question =>
      if truthy next_question then
        reset_to_ask_question;;
        modify (with_user_question next_question);;
        append_message (user_message next_question);;
        save_current w;;
        try_except
          (msgs ← gets messages;
           sql ← ask_vanna w next_question None (Some msgs);
           if negb (starts_like_query sql) then
             show st_error ("Generated text is not valid SQL:" +:+ nl +:+ nl +:+ sql)
           else
             modify (with_sql sql);;
             modify (with_stage show_query);;
             st_rerun)
          (fun e => show st_error ("Error: " +:+ e))
      else mret tt
  | _ => mret tt
  end.

(** The text area is bound to the key [user_feedback]: what is typed is in
    the session state when the button is seen. *)
Definition stage_get_feedback (w : world) (e : event) : script unit :=
  match e with
  | ClickSubmitFeedback typed =>
      modify (with_user_feedback typed);;
      typed ← gets user_feedback;
      let feedback_text := strip typed in
      if truthy feedback_text then
        try_except
          (question ← gets user_question;
           new_sql ← ask_vanna w question (Some feedback_text) None;
           if negb (starts_like_query new_sql) then
             show st_error ("Invalid regenerated SQL:" +:+ nl +:+ nl +:+ new_sql)
           else
             old_sql ← gets sql;
             append_feedback_to_json w question old_sql feedback_text new_sql;;
             modify (with_sql new_sql);;
             append_message (user_message ("Feedback: " +:+ feedback_text));;
             append_message (assistant_message new_sql);;
             save_current w;;
             modify (with_stage show_query);;
             st_rerun)
          (fun e => show st_error ("Error regenerating SQL: " +:+ e))
      else show st_warning "Please provide feedback"
  | _ => mret tt
  end.

(** The whole script, top to bottom.  The loop that renders the messages
    changes nothing and is left out. *)
Definition script_body (w : world) (e : event) : script unit :=
  sidebar_new_chat w e;;
  sidebar_manual_sql w e;;
  sidebar_chat_history e;;
  current ← gets stage;
  match current with
  | ask_question => stage_ask_question w e
  | show_query => stage_show_query w
  | ask_feedback => stage_ask_feedback w e
  | get_feedback => stage_get_feedback w e
  end.

(** One run: the state it leaves and what it did, an uncaught exception
    being the last thing shown. *)
Definition run_script (w : world) (e : event) (a : app) : app * list effect :=
  match script_body w e (Machine a [] 0) with
  | (Raised err, m) => (app_of m, trace m ++ [Crashed err])
  | (_, m) => (app_of m, trace m)
  end.

(** A session as the first run finds it. *)
Definition new_session (sid : string) (files : gmap string chat_file)
    (feedback : option (list feedback_entry)) : app :=
  App sid ask_question [] "" "" None "" files feedback.

(** States the controller gets to from [a0], run after run. *)
Inductive reachable_from (a0 : app) : app -> Prop :=
| reach_start : reachable_from a0 a0
| reach_run (w : world) (e : event) (a : app) :
    reachable_from a0 a -> reachable_from a0 (fst (run_script w e a)).

(** ** Vocabulary of the specification *)

Fixpoint all_chars (p : ascii -> bool) (s : string) : bool :=
  match s with
  | EmptyString => true
  | String c s' => p c && all_chars p s'
  end.

(** [v] spells [k], each letter in either case. *)
Fixpoint case_variant (v k : string) : Prop :=
  match v, k with
  | EmptyString, EmptyString => True
  | String a v', String c k' =>
      (a = lower_char c \/ a = upper_char c) /\ case_variant v' k'
  | _, _ => False
  end.

(** [keyword] is a substring of [text], in any case combination. *)
Definition occurs_ignoring_case (keyword text : string) : Prop :=
  exists before v after, text = before +:+ v +:+ after /\ case_variant v keyword.

(** [text] starts with [keyword], in any case combination. *)
Definition starts_ignoring_case (keyword text : string) : Prop :=
  exists v rest, text = v +:+ rest /\ case_variant v keyword.




(** *** Prompt layout *)

Definition history_line (msg : message) : string :=
  if String.eqb (role msg) "user" then "User: " +:+ content msg +:+ nl
  else if String.eqb (role msg) "assistant" then "Assistant SQL: " +:+ content msg +:+ nl
  else "".

Fixpoint string_concat (parts : list string) : string :=
  match parts with
  | [] => ""
  | p :: parts' => p +:+ string_concat parts'
  end.

Definition question_line (question : string) : string :=
  nl +:+ "User: " +:+ question +:+ nl.

(** A feedback that is missing or empty gives no line. *)
Definition feedback_line (feedback : option string) : string :=
  match feedback with
  | Some (String c f) => "Feedback: " +:+ String c f +:+ nl
  | _ => ""
  end.

Definition INSTRUCTION : string :=
  "Generate an appropriate SQL query to answer the user.".

(** *** Adjacent assistant turns with the same SQL *)

Definition same_sql_turns (m1 m2 : message) : bool :=
  String.eqb (role m1) "assistant" && String.eqb (role m2) "assistant"
  && String.eqb (content m1) (content m2).

Fixpoint has_adjacent_duplicates (l : list message) : bool :=
  match l with
  | m1 :: ((m2 :: _) as rest) => same_sql_turns m1 m2 || has_adjacent_duplicates rest
  | _ => false
  end.

(** *** Stored form of a chat *)

Definition stored_cell (c : cell) : cell :=
  match c with
  | CObj (ODatetime d) => CStr (isoformat d)
  | _ => c
  end.

Definition stored_row (r : row) : row :=
  map (fun kv => (fst kv, stored_cell (snd kv))) r.

Definition stored_form (m : message) : message :=
  {| role := role m;
     content := content m;
     result := option_map (map stored_row) (result m);
     show_plot := show_plot m |}.

Definition encodable_cell (c : cell) : bool :=
  match c with
  | CObj (OOther _) => false
  | _ => true
  end.


Definition all_cells (p : cell -> bool) (messages : list message) : bool :=
  forallb (fun m => match result m with
                    | Some rows => forallb (forallb (fun kv => p (snd kv))) rows
                    | None => true
                    end) messages.

(** Every result value is one [json.dump] can write, datetimes included. *)
Definition encodable (messages : list message) : bool :=
  all_cells encodable_cell messages.




(** The JSON text of a chat, value by value. *)
Definition encoded_cell (c : cell) : json :=
  match c with
  | CNone => JNull
  | CBool b => JBool b
  | CInt z => JInt z
  | CStr s => JStr s
  | CObj (ODatetime d) => JStr (isoformat d)
  | CObj (OOther _) => JNull
  end.

Definition encoded_row (r : row) : json :=
  JObj (map (fun kv => (fst kv, encoded_cell (snd kv))) r).

Definition encoded_message (m : message) : json :=
  JObj ([("role", JStr (role m)); ("content", JStr (content m))]
        ++ match result m with
           | Some rows => [("result", JArr (map encoded_row rows))]
           | None => []
           end
        ++ match show_plot m with
           | Some b => [("show_plot", JBool b)]
           | None => []
           end).

Definition encoded_session (messages : list message) : json :=
  JObj [("title", JStr (chat_title messages));
        ("messages", JArr (map encoded_message messages))].

(** Every result value of [m] is one [json.dump] can write. *)
Definition encodable_message (m : message) : bool :=
  match result m with
  | Some rows => forallb (forallb (fun kv => encodable_cell (snd kv))) rows
  | None => true
  end.

(** *** Messages and states of the controller *)

Definition UNSAFE_QUESTION : string :=
  "Error: Queries with DELETE, UPDATE, DROP, INSERT, or other unsafe operations are not allowed.".

(** The conversation state is blank. *)
Definition blank (a : app) : Prop :=
  stage a = ask_question /\ user_question a = "" /\ sql a = ""
  /\ query_result a = None /\ user_feedback a = "".




(** *** Stored SQL texts *)










(** *** Sample data *)

Definition sample_world : world :=
  World (fun _ => Raise "offline") (fun _ => Raise "offline") (fun _ => "0000").

Definition sample_datetime : datetime := Datetime 2024 3 5 10 20 30 0.

Definition sample_chat : list message :=
  [user_message "recent orders";
   assistant_result "SELECT created FROM orders"
                    [[("created", CObj (ODatetime sample_datetime))]] false].

Definition sample_feedback_state : app :=
  App "s1" get_feedback
      [user_message "revenue by month";
       assistant_result "SELECT month, cost FROM x" [] false]
      "revenue by month" "SELECT month, cost FROM x" (Some []) "" ∅ None.

Definition sample_asked_state : app :=
  App "s1" ask_feedback
      [user_message "revenue by month";
       assistant_result "SELECT month, cost FROM x" [] false]
      "revenue by month" "SELECT month, cost FROM x" (Some []) "" ∅ None.

Definition sample_generator : world :=
  World (fun _ => Ok "SELECT vendor, SUM(spend) FROM orders GROUP BY vendor")
        (fun _ => Ok []) (fun _ => "0000").


Definition CTE_DELETE : string :=
  "WITH old AS (SELECT id FROM orders) DELETE FROM orders WHERE id IN (SELECT id FROM old)".

Definition sample_write_generator : world :=
  World (fun _ => Ok CTE_DELETE) (fun _ => Ok []) (fun _ => "0000").

(** ** Further vocabulary *)

(** [d[k]] on a row, [None] for a missing column. *)
Fixpoint row_get (k : string) (d : row) : option cell :=
  match d with
  | [] => None
  | (k', v) :: d' => if String.eqb k k' then Some v else row_get k d'
  end.

(** The value of the last pair for [k]. *)
Fixpoint last_value (k : string) (kvs : list (string * cell)) : option cell :=
  match kvs with
  | [] => None
  | (k', v) :: rest =>
      match last_value k rest with
      | Some v' => Some v'
      | None => if String.eqb k k' then Some v else None
      end
  end.



(** The error text of [serialize_datetime]. *)
Definition not_serializable (e : string) : Prop :=
  exists type_repr, e = "Type " +:+ type_repr +:+ " not serializable".

Definition NO_FEEDBACK : string := "Please provide feedback".

Definition UNSAFE_MANUAL_SQL : string :=
  "Unsafe SQL detected. Only SELECT-like statements allowed.".

(** The part of the session state that the stages work on. *)
Definition conversation (a : app) : stage_t * string * string * option records * string :=
  (stage a, user_question a, sql a, query_result a, user_feedback a).

(** What holds of the conversation state in each stage. *)
Definition stage_invariant (a : app) : Prop :=
  (stage a = ask_question ->
   sql a = "" /\ query_result a = None /\ user_feedback a = "")
  /\ (stage a <> ask_question -> truthy (user_question a) = true)
  /\ (stage a = ask_feedback \/ stage a = get_feedback -> is_Some (query_result a)).




(** ** sql_agent/sql_assistant.py: schema and training *)

(** The keys of a dict in the order in which they were first set. *)
Fixpoint first_seen (keys : list string) : list string :=
  match keys with
  | [] => []
  | k :: rest => k :: filter (fun k' => k' <> k) (first_seen rest)
  end.

(** [sep.join(parts)] *)
Fixpoint join (sep : string) (parts : list string) : string :=
  match parts with
  | [] => ""
  | p :: rest =>
      match rest with
      | [] => p
      | _ :: _ => p +:+ sep +:+ join sep rest
      end
  end.

(** One row of the schema query: table, column and data type. *)
Definition schema_row : Type := string * string * string.

Definition table_of (r : schema_row) : string := fst (fst r).

(** [f"{column} {dtype.upper()}"] *)
Definition column_line (r : schema_row) : string :=
  snd (fst r) +:+ " " +:+ upper (snd r).

(** [ddl_dict.setdefault(table, []).append(line)], the dict in insertion
    order. *)
Fixpoint setdefault_append (table line : string) (ddl_dict : list (string * list string))
  : list (string * list string) :=
  match ddl_dict with
  | [] => [(table, [line])]
  | (t, cols) :: rest =>
      if String.eqb table t then (t, cols ++ [line]) :: rest
      else (t, cols) :: setdefault_append table line rest
  end.

Definition group_by_table (rows : list schema_row) : list (string * list string) :=
  fold_left (fun ddl_dict r => setdefault_append (table_of r) (column_line r) ddl_dict)
            rows [].

Definition create_table (entry : string * list string) : string :=
  "CREATE TABLE " +:+ fst entry +:+ " (" +:+ nl +:+ "  "
  +:+ join ("," +:+ nl +:+ "  ") (snd entry) +:+ nl +:+ ");".

Definition ddl_of_rows (rows : list schema_row) : string :=
  join (nl +:+ nl) (map create_table (group_by_table rows)).

(** What the driver does for [fetch_schema_mysql] and
    [fetch_schema_sqlserver]: [connect] may raise; once connected, the query
    gives rows or raises, and [conn.close()] runs in the [finally] clause. *)
Inductive driver_reply : Type :=
| ConnectFailed (e : string)
| Connected (rows : exc (list schema_row)) (close : exc unit).

(** The body the two functions share: every exception of the [try] block
    gives [None]; one raised by [conn.close()] leaves the function. *)
Definition fetch_schema (reply : driver_reply) : exc (option string) :=
  match reply with
  | ConnectFailed _ => Ok None
  | Connected rows close =>
      let ddl := match rows with
                 | Ok rows => Some (ddl_of_rows rows)
                 | Raise _ => None
                 end in
      exc_bind close (fun _ => Ok ddl)
  end.

Inductive training : Type :=
| TrainDdl (ddl : string)
| TrainDocumentation (documentation : string).

Inductive db_kind : Type := mysql | sqlserver.

(** What [train_vanna] finds around it: the environment variable, the
    drivers, the model's constructor and its methods, and whether a file can
    be created at a path. *)
Record training_world : Type := TrainingWorld
  { DB_TYPE : option string;
    connector_connect : db_kind -> exc unit;
    MyVanna : exc unit;
    vn_connect : db_kind -> exc unit;
    schema_driver : db_kind -> driver_reply;
    vn_train : training -> exc unit;
    may_create : string -> bool }.

(** The model's calls to [vn.train] so far, and the files. *)
Record trainer_state : Type := TrainerState
  { trained : list training;
    feedback_files : gmap string chat_file }.

Definition trainer (A : Type) : Type := trainer_state -> exc A * trainer_state.

#[global] Instance trainer_ret : MRet trainer := fun A x s => (Ok x, s).

#[global] Instance trainer_bind : MBind trainer := fun A B k c s =>
  match c s with
  | (Ok x, s') => k x s'
  | (Raise e, s') => (Raise e, s')
  end.

Definition trainer_raise {A : Type} (e : string) : trainer A := fun s => (Raise e, s).

Definition trainer_lift {A : Type} (x : exc A) : trainer A := fun s => (x, s).

Definition train (w : training_world) (t : training) : trainer unit := fun s =>
  (vn_train w t, TrainerState (trained s ++ [t]) (feedback_files s)).

Definition unsupported_db_type (db_type : option string) : string :=
  "Unsupported DB_TYPE '" +:+ default "None" db_type +:+ "'".

(** [DBConnector()]: reads the environment and connects. *)
Definition DBConnector (w : training_world) : exc (option string) :=
  if bool_decide (DB_TYPE w = Some "mysql") then
    exc_bind (connector_connect w mysql) (fun _ => Ok (DB_TYPE w))
  else if bool_decide (DB_TYPE w = Some "sqlserver") then
    exc_bind (connector_connect w sqlserver) (fun _ => Ok (DB_TYPE w))
  else Raise (unsupported_db_type (DB_TYPE w)).

Definition fetch_schema_mysql (w : training_world) : exc (option string) :=
  fetch_schema (schema_driver w mysql).

Definition fetch_schema_sqlserver (w : training_world) : exc (option string) :=
  fetch_schema (schema_driver w sqlserver).

(** The file is created, holding [[]], when it is missing; then it is read.
    Neither step raises: a file that cannot be created or read gives [[]]. *)
Definition load_or_create_feedback_json (w : training_world) (filepath : string)
  : trainer json := fun s =>
  let fs := feedback_files s in
  let created :=
    match fs !! filepath with
    | None => if may_create w filepath then Some (<[filepath := FileJson (JArr [])]> fs)
              else None
    | Some _ => Some fs
    end in
  match created with
  | None => (Ok (JArr []), s)
  | Some fs' =>
      (Ok match fs' !! filepath with
          | Some (FileJson data) => data
          | _ => JArr []
          end,
       TrainerState (trained s) fs')
  end.

(** [for feedback in feedback_list]: a list gives its items, a dict its keys,
    a string its characters; nothing else can be iterated. *)
Definition iterate (feedback_list : json) : exc (list json) :=
  match feedback_list with
  | JArr items => Ok items
  | JObj fields => Ok (map JStr (first_seen (map fst fields)))
  | JStr s => Ok (map (fun c => JStr (String c "")) (list_ascii_of_string s))
  | _ => Raise "TypeError: object is not iterable"
  end.

(** [feedback.get(key, '').strip()] *)
Definition get_stripped (key : string) (feedback : json) : exc string :=
  match feedback with
  | JObj fields =>
      match json_get key fields with
      | None => Ok (strip "")
      | Some (JStr s) => Ok (strip s)
      | Some _ => Raise "AttributeError: object has no attribute 'strip'"
      end
  | _ => Raise "AttributeError: object has no attribute 'get'"
  end.

Definition feedback_documentation (user_q correct_sql : string) : string :=
  "User question: " +:+ user_q +:+ nl +:+ "Correct SQL: " +:+ correct_sql.

Fixpoint train_feedback (w : training_world) (feedback_list : list json) : trainer unit :=
  match feedback_list with
  | [] => mret tt
  | feedback :: rest =>
      user_q ← trainer_lift (get_stripped "user_question" feedback);
      correct_sql ← trainer_lift (get_stripped "correct_sql" feedback);
      (if truthy user_q && truthy correct_sql then
         train w (TrainDocumentation (feedback_documentation user_q correct_sql))
       else mret tt);;
      train_feedback w rest
  end.

Definition CROSS_MARK : string :=
  String (ascii_of_nat 226) (String (ascii_of_nat 157) (String (ascii_of_nat 140) "")).

Definition FAILED_TO_FETCH_SCHEMA : string := CROSS_MARK +:+ " Failed to fetch schema".

Definition DOCUMENTATION : string :=
  "This database includes tables for operational reporting, " +:+ nl
  +:+ "    spend analytics, vendor performance, invoice insights, and taxonomy classification.".

Definition train_vanna (w : training_world) (feedback_json_path : option string)
  : trainer unit :=
  db_type ← trainer_lift (DBConnector w);
  trainer_lift (MyVanna w);;
  ddl ← (if bool_decide (db_type = Some "mysql") then
           trainer_lift (vn_connect w mysql);;
           trainer_lift (fetch_schema_mysql w)
         else if bool_decide (db_type = Some "sqlserver") then
           trainer_lift (vn_connect w sqlserver);;
           trainer_lift (fetch_schema_sqlserver w)
         else trainer_raise (unsupported_db_type db_type));
  match ddl with
  | Some ((String _ _) as ddl) =>
      train w (TrainDdl ddl);;
      train w (TrainDocumentation DOCUMENTATION);;
      match feedback_json_path with
      | Some ((String _ _) as path) =>
          feedback_list ← load_or_create_feedback_json w path;
          items ← trainer_lift (iterate feedback_list);
          train_feedback w items
      | _ => mret tt
      end
  | _ => trainer_raise FAILED_TO_FETCH_SCHEMA
  end.

(** app.py: the model the application uses. *)
Definition get_vanna (w : training_world) : trainer unit := train_vanna w None.

(** [json.dump] of the record [append_feedback_to_json] builds. *)
Definition encoded_feedback (fb : feedback_entry) : json :=
  JObj [("id", JStr (fb_id fb));
        ("user_question", JStr (fb_user_question fb));
        ("incorrect_sql", JStr (fb_incorrect_sql fb));
        ("feedback", JStr (fb_feedback fb));
        ("correct_sql", JStr (fb_correct_sql fb))].

(** *** Vocabulary for the training *)

(** The columns of table [t], in the order of the rows. *)
Definition columns_of (t : string) (rows : list schema_row) : list string :=
  map column_line (filter (fun r => table_of r = t) rows).

Definition db_type_name (kind : db_kind) : string :=
  match kind with
  | mysql => "mysql"
  | sqlserver => "sqlserver"
  end.

(** The database is of a supported kind and every connection is made. *)
Definition connects (w : training_world) (kind : db_kind) : Prop :=
  DB_TYPE w = Some (db_type_name kind)
  /\ connector_connect w kind = Ok tt
  /\ MyVanna w = Ok tt
  /\ vn_connect w kind = Ok tt.

(** A feedback record that is used for training: question and corrected SQL
    are both more than whitespace. *)
Definition replayable (fb : feedback_entry) : bool :=
  truthy (strip (fb_user_question fb)) && truthy (strip (fb_correct_sql fb)).

Definition replayed (entries : list feedback_entry) : list training :=
  map (fun fb => TrainDocumentation
                   (feedback_documentation (strip (fb_user_question fb))
                                           (strip (fb_correct_sql fb))))
      (filter (fun fb => replayable fb) entries).

(** A reply of the driver that leaves [train_vanna] without a schema: no
    connection, a query that raises, or no rows. *)
Definition without_schema (reply : driver_reply) : Prop :=
  (exists e, reply = ConnectFailed e)
  \/ (exists e, reply = Connected (Raise e) (Ok tt))
  \/ reply = Connected (Ok []) (Ok tt).

(** The state after the two calls [train_vanna] always makes. *)
Definition trained_on_schema (rows : list schema_row) (s : trainer_state) : trainer_state :=
  TrainerState (trained s ++ [TrainDdl (ddl_of_rows rows); TrainDocumentation DOCUMENTATION])
               (feedback_files s).

Definition sample_rows : list schema_row :=
  [("invoices", "id", "int"); ("invoices", "amount", "decimal");
   ("vendors", "id", "int"); ("invoices", "paid_at", "datetime")].

Definition sample_training_world : training_world :=
  {| DB_TYPE := Some "mysql";
     connector_connect := fun _ => Ok tt;
     MyVanna := Ok tt;
     vn_connect := fun _ => Ok tt;
     schema_driver := fun _ => Connected (Ok sample_rows) (Ok tt);
     vn_train := fun _ => Ok tt;
     may_create := fun _ => true |}.

(** ** app.py: the list of chats *)

(** [s.endswith(suffix)] *)
Fixpoint endswith (s suffix : string) : bool :=
  String.eqb s suffix
  || match s with
     | EmptyString => false
     | String _ s' => endswith s' suffix
     end.

(** [s.replace(old, "")] for an [old] that is not empty: the occurrences are
    taken out from left to right; [skip] counts the characters of the
    occurrence found last that are still to be dropped. *)
Fixpoint remove_occurrences (old : string) (skip : nat) (s : string) : string :=
  match s with
  | EmptyString => EmptyString
  | String c s' =>
      match skip with
      | S skip' => remove_occurrences old skip' s'
      | O =>
          if String.prefix old s then remove_occurrences old (String.length old - 1) s'
          else String c (remove_occurrences old 0 s')
      end
  end.

(** A file of the directory [chat_histories]: its name, [os.path.getctime]
    and what [json.load] finds in it. *)
Record dir_entry : Type := DirEntry
  { file_name : string;
    getctime : Z;
    file_content : chat_file }.




(** The body of the loop: session id and title, or nothing when the file
    cannot be read or holds no dict. *)
Definition read_chat (e : dir_entry) : option (string * json) :=
  match file_content e with
  | FileJson (JObj fields) =>
      Some (remove_occurrences ".json" 0 (file_name e),
            default (JStr "Untitled Chat") (json_get "title" fields))
  | _ => None
  end.


(** ** app.py: charts *)

(** What [select_dtypes] makes of a column. *)
Inductive column_kind : Type := NumberColumn | ObjectColumn | OtherColumn.

#[global] Instance column_kind_eq_dec : EqDecision column_kind.
Proof. solve_decision. Defined.

Record dataframe : Type := DataFrame
  { df_columns : list (string * column_kind);
    df_rows : nat }.

(** [df.empty]: no column or no row. *)
Definition df_empty (df : dataframe) : bool :=
  match df_columns df with
  | [] => true
  | _ :: _ => Nat.eqb (df_rows df) 0
  end.

(** [df.select_dtypes(include=kind).columns.tolist()] *)
Definition select_dtypes (include : column_kind) (df : dataframe) : list string :=
  map fst (filter (fun c => snd c = include) (df_columns df)).

Inductive figure : Type :=
| Bar (x y : string)
| Scatter (x y : string)
| Histogram (x : string).

Inductive plot_outcome : Type :=
| PlotlyChart (fig : figure)
| PlotWarning (text : string).

Definition generate_plot_from_df (df : option dataframe) : plot_outcome :=
  match df with
  | None => PlotWarning "No data to plot."
  | Some df =>
      if df_empty df then PlotWarning "No data to plot."
      else
        let numeric_cols := select_dtypes NumberColumn df in
        let categorical_cols := select_dtypes ObjectColumn df in
        match categorical_cols, numeric_cols with
        | c :: _, n :: _ => PlotlyChart (Bar c n)
        | _, n1 :: n2 :: _ => PlotlyChart (Scatter n1 n2)
        | _, n :: _ => PlotlyChart (Histogram n)
        | _, [] => PlotWarning "Not enough columns to generate a plot."
        end
  end.

(** *** Vocabulary for the list of chats *)


Definition is_chat_file (e : dir_entry) : Prop := endswith (file_name e) ".json" = true.

Definition sample_directory : list dir_entry :=
  [DirEntry "a.json" 10 (FileJson (JObj [("title", JStr "first")]));
   DirEntry "notes.txt" 50 FileTruncated;
   DirEntry "b.json" 30 FileTruncated;
   DirEntry "c.json" 20 (FileJson (JObj []));
   DirEntry "d.json.json" 20 (FileJson (JObj [("title", JInt 3)]))].

(** * Part II: properties *)

(** ** Characters and strings *)

Lemma nat_of_ascii_inj a b : nat_of_ascii a = nat_of_ascii b -> a = b.
Proof.
  intros H. rewrite <- (ascii_nat_embedding a), <- (ascii_nat_embedding b). by rewrite H.
Qed.

Lemma is_ascii_lower_spec c :
  is_ascii_lower c = true <-> 97 <= nat_of_ascii c <= 122.
Proof. unfold is_ascii_lower. rewrite andb_true_iff, !Nat.leb_le. done. Qed.

Lemma is_ascii_upper_spec c :
  is_ascii_upper c = true <-> 65 <= nat_of_ascii c <= 90.
Proof. unfold is_ascii_upper. rewrite andb_true_iff, !Nat.leb_le. done. Qed.

Lemma nat_of_upper_char a :
  nat_of_ascii (upper_char a) =
  if is_ascii_lower a then nat_of_ascii a - 32 else nat_of_ascii a.
Proof.
  unfold upper_char. destruct (is_ascii_lower a) eqn:E; [|done].
  apply is_ascii_lower_spec in E. apply nat_ascii_embedding. lia.
Qed.

Lemma nat_of_lower_char a :
  nat_of_ascii (lower_char a) =
  if is_ascii_upper a then nat_of_ascii a + 32 else nat_of_ascii a.
Proof.
  unfold lower_char. destruct (is_ascii_upper a) eqn:E; [|done].
  apply is_ascii_upper_spec in E. apply nat_ascii_embedding. lia.
Qed.

Ltac char_arith :=
  repeat match goal with
  | H : is_ascii_lower _ = true |- _ => apply is_ascii_lower_spec in H
  | H : is_ascii_upper _ = true |- _ => apply is_ascii_upper_spec in H
  | H : is_ascii_lower ?c = false |- _ =>
      let H' := fresh in
      assert (H' : ~ (97 <= nat_of_ascii c <= 122))
        by (rewrite <- is_ascii_lower_spec, H; discriminate); clear H
  | H : is_ascii_upper ?c = false |- _ =>
      let H' := fresh in
      assert (H' : ~ (65 <= nat_of_ascii c <= 90))
        by (rewrite <- is_ascii_upper_spec, H; discriminate); clear H
  end.

Lemma upper_char_hits a c :
  is_ascii_upper c = true ->
  upper_char a = c <-> (a = lower_char c \/ a = upper_char c).
Proof.
  intros Hc.
  assert (Hcc : upper_char c = c).
  { unfold upper_char. destruct (is_ascii_lower c) eqn:E; [|done]. char_arith. lia. }
  rewrite Hcc. split.
  - intros <-. destruct (is_ascii_lower a) eqn:Ea.
    + left. apply nat_of_ascii_inj. rewrite nat_of_lower_char, Hc, nat_of_upper_char, Ea.
      char_arith. lia.
    + right. unfold upper_char. by rewrite Ea.
  - intros [-> | ->]; [|done]. apply nat_of_ascii_inj.
    rewrite nat_of_upper_char.
    destruct (is_ascii_lower (lower_char c)) eqn:E;
      char_arith; rewrite nat_of_lower_char in *;
      destruct (is_ascii_upper c) eqn:E2; char_arith; lia.
Qed.


(** *** Strings *)

Lemma string_app_nil_l s : "" +:+ s = s.
Proof. reflexivity. Qed.

Lemma string_app_cons a s t : String a s +:+ t = String a (s +:+ t).
Proof. reflexivity. Qed.

Lemma string_app_nil_r s : s +:+ "" = s.
Proof. induction s; rewrite ?string_app_nil_l, ?string_app_cons; congruence. Qed.

Lemma string_app_assoc s t u : (s +:+ t) +:+ u = s +:+ t +:+ u.
Proof. induction s; rewrite ?string_app_nil_l, ?string_app_cons; congruence. Qed.

Lemma string_app_eq_nil s t : s +:+ t = "" -> s = "" /\ t = "".
Proof. destruct s; rewrite ?string_app_nil_l, ?string_app_cons; [done|discriminate]. Qed.

Lemma string_map_app f s t : string_map f (s +:+ t) = string_map f s +:+ string_map f t.
Proof.
  induction s; rewrite ?string_app_nil_l, ?string_app_cons; simpl;
    rewrite ?string_app_nil_l, ?string_app_cons; congruence.
Qed.

Lemma prefix_cons c k a s :
  String.prefix (String c k) (String a s) = true <-> c = a /\ String.prefix k s = true.
Proof.
  simpl. destruct (ascii_dec c a); split; try tauto; try discriminate; intros []; done.
Qed.

Section case_folding.
Variable fold_char : ascii -> ascii.
Variable letter : ascii -> bool.
Hypothesis fold_hits :
  forall a c, letter c = true ->
    fold_char a = c <-> (a = lower_char c \/ a = upper_char c).

Lemma prefix_folded k :
  all_chars letter k = true ->
  forall s, String.prefix k (string_map fold_char s) = true <-> starts_ignoring_case k s.
Proof.
  unfold starts_ignoring_case.
  induction k as [|c k IH]; intros Hk s.
  - split; [|by destruct (string_map fold_char s)]. intros _. by exists "", s.
  - simpl in Hk. apply andb_true_iff in Hk as [Hc Hk]. destruct s as [|a s].
    + split; [done|]. intros (v & rest & Hs & Hv).
      destruct v; simpl in *; [done|discriminate].
    + change (string_map fold_char (String a s))
        with (String (fold_char a) (string_map fold_char s)).
      rewrite prefix_cons, (IH Hk s). split.
      * intros [Hca (v & rest & -> & Hv)]. exists (String a v), rest.
        split; [done|]. simpl. split; [|done]. by apply fold_hits.
      * intros (v & rest & Hs & Hv). destruct v as [|a' v]; [done|].
        simpl in Hs, Hv. injection Hs as -> ->. destruct Hv as [Ha Hv].
        split; [symmetry; by apply fold_hits|]. by exists v, rest.
Qed.

Lemma contains_folded k :
  all_chars letter k = true ->
  forall s, contains k (string_map fold_char s) = true <-> occurs_ignoring_case k s.
Proof.
  intros Hk. unfold occurs_ignoring_case. induction s as [|a s IH].
  - pose proof (prefix_folded k Hk "") as Hp.
    change (contains k (string_map fold_char "")) with (String.prefix k "" || false).
    change (string_map fold_char "") with EmptyString in Hp.
    rewrite orb_false_r, Hp. unfold starts_ignoring_case. split.
    + intros (v & rest & Hs & Hv). by exists "", v, rest.
    + intros (b & v & rest & Hs & Hv). symmetry in Hs. 
      apply string_app_eq_nil in Hs as [-> Hs]. by exists v, rest.
  - change (contains k (string_map fold_char (String a s)))
      with (String.prefix k (string_map fold_char (String a s))
            || contains k (string_map fold_char s)).
    rewrite orb_true_iff, IH, (prefix_folded k Hk). split.
    + intros [(v & rest & Hs & Hv) | (b & v & rest & -> & Hv)].
      * by exists "", v, rest.
      * by exists (String a b), v, rest.
    + intros (b & v & rest & Hs & Hv). destruct b as [|a' b].
      * left. by exists v, rest.
      * right. simpl in Hs. injection Hs as -> ->. by exists b, v, rest.
Qed.
End case_folding.

Lemma forbidden_keywords_upper keyword :
  In keyword FORBIDDEN_KEYWORDS -> all_chars is_ascii_upper keyword = true.
Proof. simpl. intros H. repeat destruct H as [<- | H]; done. Qed.

Lemma keyword_in_upper keyword query :
  In keyword FORBIDDEN_KEYWORDS ->
  contains keyword (upper query) = true <-> occurs_ignoring_case keyword query.
Proof.
  intros Hin. apply (contains_folded upper_char is_ascii_upper upper_char_hits).
  by apply forbidden_keywords_upper.
Qed.

Lemma is_query_safe_false query :
  is_query_safe query = false <->
  exists keyword, In keyword FORBIDDEN_KEYWORDS /\ occurs_ignoring_case keyword query.
Proof.
  unfold is_query_safe. rewrite negb_false_iff, existsb_exists.
  split; intros (k & Hin & Hk); exists k; (split; [done|]); by apply keyword_in_upper.
Qed.



(** ** Trimming *)

Lemma lstrip_blank s : all_chars is_space s = true -> lstrip s = "".
Proof.
  induction s as [|c s IH]; [done|]. simpl. intros [Hc Hs]%andb_true_iff.
  rewrite Hc. auto.
Qed.













(** ** The prompt builder *)

Lemma render_message_line prompt msg :
  render_message prompt msg = prompt +:+ history_line msg.
Proof.
  unfold render_message, history_line.
  destruct (String.eqb (role msg) "user"); [done|].
  destruct (String.eqb (role msg) "assistant"); [done|].
  by rewrite string_app_nil_r.
Qed.

Lemma fold_render_message msgs : forall prompt,
  fold_left render_message msgs prompt
  = prompt +:+ string_concat (map history_line msgs).
Proof.
  induction msgs as [|msg msgs IH]; intros prompt; simpl.
  - by rewrite string_app_nil_r.
  - by rewrite IH, render_message_line, string_app_assoc.
Qed.

Lemma last_n_suffix {A} n (l : list A) :
  exists older, l = older ++ last_n n l /\ length (last_n n l) = Nat.min n (length l).
Proof.
  unfold last_n. exists (take (length l - n) l). split.
  - by rewrite take_drop.
  - rewrite length_drop. lia.
Qed.

(** C6: the prompt is, in this order, one line for each of the last five
    history messages at most, in their order and with their whole content
    ([User: ...] or [Assistant SQL: ...]), the line of the new question, the
    feedback line when a feedback text is given, and the fixed instruction. *)
Theorem build_prompt_layout (question : string) (feedback : option string)
    (history : option (list message)) :
  exists older window,
    default [] history = older ++ window
    /\ length window = Nat.min 5 (length (default [] history))
    /\ build_prompt question feedback history
       = string_concat (map history_line window)
         +:+ question_line question +:+ feedback_line feedback +:+ INSTRUCTION.
Proof.
  destruct (last_n_suffix 5 (default [] history)) as (older & Hsplit & Hlen).
  exists older, (last_n 5 (default [] history)). split; [done|]. split; [done|].
  unfold build_prompt, question_line, INSTRUCTION.
  assert (Hhist : match history with
                  | Some ((_ :: _) as msgs) => fold_left render_message (last_n 5 msgs) ""
                  | _ => ""
                  end = string_concat (map history_line (last_n 5 (default [] history)))).
  { destruct history as [[|m msgs]|]; [done| |done].
    by rewrite fold_render_message. }
  rewrite Hhist.
  destruct feedback as [[|c f]|]; simpl feedback_line; simpl truthy; cbv iota;
    rewrite ?string_app_assoc, ?string_app_nil_l; done.
Qed.

Example build_prompt_last_five :
  build_prompt "q7" (Some "use month") 
    (Some [user_message "q1"; assistant_message "s1"; user_message "q2";
           assistant_message "s2"; user_message "q3"; assistant_message "s3"])
  = "Assistant SQL: s1" +:+ nl +:+ "User: q2" +:+ nl +:+ "Assistant SQL: s2" +:+ nl
    +:+ "User: q3" +:+ nl +:+ "Assistant SQL: s3" +:+ nl +:+ nl +:+ "User: q7" +:+ nl
    +:+ "Feedback: use month" +:+ nl +:+ INSTRUCTION.
Proof. reflexivity. Qed.

(** ** Recording a result in ShowQuery *)

Lemma has_adjacent_duplicates_snoc l x :
  has_adjacent_duplicates (l ++ [x])
  = has_adjacent_duplicates l
    || match last l with Some m => same_sql_turns m x | None => false end.
Proof.
  induction l as [|m1 [|m2 l] IH]; [done| |].
  - simpl. by rewrite !orb_false_r.
  - change (has_adjacent_duplicates ((m1 :: m2 :: l) ++ [x]))
      with (same_sql_turns m1 m2 || has_adjacent_duplicates ((m2 :: l) ++ [x])).
    rewrite IH. change (last (m1 :: m2 :: l)) with (last (m2 :: l)).
    simpl has_adjacent_duplicates at 2. by rewrite orb_assoc.
Qed.

Lemma same_sql_turns_content m m1 m2 :
  role m1 = role m2 -> content m1 = content m2 ->
  same_sql_turns m m1 = same_sql_turns m m2.
Proof. unfold same_sql_turns. by intros -> ->. Qed.

(** What [pop_duplicate] does, case by case. *)
Lemma pop_duplicate_hit older m sql :
  role m = "assistant" -> content m = sql -> pop_duplicate (older ++ [m]) sql = older.
Proof.
  intros Hr Hc. unfold pop_duplicate. rewrite last_snoc, Hr, Hc, !String.eqb_refl.
  by rewrite removelast_last.
Qed.

Lemma pop_duplicate_miss msgs sql :
  (forall m, last msgs = Some m -> role m = "assistant" -> content m <> sql) ->
  pop_duplicate msgs sql = msgs.
Proof.
  intros H. unfold pop_duplicate. destruct (last msgs) as [m|]; [|done].
  destruct (String.eqb_spec (role m) "assistant") as [Hr|]; [|done].
  destruct (String.eqb_spec (content m) sql) as [Hc|]; [|done].
  by destruct (H m eq_refl Hr).
Qed.

Lemma pop_duplicate_cases msgs sql :
  (exists older m, msgs = older ++ [m] /\ role m = "assistant" /\ content m = sql
                   /\ pop_duplicate msgs sql = older)
  \/ ((forall m, last msgs = Some m -> role m = "assistant" -> content m <> sql)
      /\ pop_duplicate msgs sql = msgs).
Proof.
  destruct (last msgs) as [m|] eqn:Hlast.
  - destruct (String.eqb_spec (role m) "assistant") as [Hr|Hr];
      [destruct (String.eqb_spec (content m) sql) as [Hc|Hc]|].
    + left. apply last_Some in Hlast as [older ->]. exists older, m.
      auto using pop_duplicate_hit.
    + right. split; [|apply pop_duplicate_miss]; intros m' ?; by simplify_eq.
    + right. split; [|apply pop_duplicate_miss]; intros m' ?; by simplify_eq.
  - right. split; [|apply pop_duplicate_miss]; intros m' ?; by simplify_eq.
Qed.

Lemma record_result_clean msgs sql res plot :
  has_adjacent_duplicates msgs = false ->
  has_adjacent_duplicates (record_result msgs sql res plot) = false.
Proof.
  intros Hclean. unfold record_result. rewrite has_adjacent_duplicates_snoc.
  destruct (pop_duplicate_cases msgs sql)
    as [(older & m & -> & Hr & Hc & ->) | [Hmiss ->]].
  - rewrite has_adjacent_duplicates_snoc in Hclean.
    apply orb_false_iff in Hclean as [-> Hlast]. simpl.
    destruct (last older) as [m'|]; [|done].
    by rewrite <- Hlast; apply same_sql_turns_content.
  - rewrite Hclean. simpl. destruct (last msgs) as [m|]; [|done].
    unfold same_sql_turns. simpl.
    destruct (String.eqb_spec (role m) "assistant") as [Hr|]; [|done].
    destruct (String.eqb_spec (content m) sql) as [Hc|]; [|done].
    by destruct (Hmiss m eq_refl Hr).
Qed.

(** Running the same SQL again replaces the turn of the first run. *)
Lemma record_result_twice msgs sql res plot res' plot' :
  record_result (record_result msgs sql res plot) sql res' plot'
  = record_result msgs sql res' plot'.
Proof.
  unfold record_result at 1 2. by rewrite pop_duplicate_hit.
Qed.

(** C5, as stated, fails on a list that already ends in two assistant turns
    with the SQL being recorded: one of them is removed, the other stays next
    to the new turn. *)
Lemma record_result_old_duplicate_stays :
  has_adjacent_duplicates
    (record_result [assistant_message "SELECT 1"; assistant_message "SELECT 1"]
                   "SELECT 1" [] false) = true.
Proof. reflexivity. Qed.

(** C5, amended: on a message list without two adjacent assistant turns of
    the same SQL, recording a result leaves none; the last message is removed
    before the append exactly when it is an assistant turn with the SQL being
    recorded; recording the same SQL twice in a row leaves one turn for it,
    the newer one. *)
Theorem record_result_suppresses_duplicate msgs sql res plot :
  has_adjacent_duplicates msgs = false ->
  has_adjacent_duplicates (record_result msgs sql res plot) = false
  /\ (forall older m,
        msgs = older ++ [m] -> role m = "assistant" -> content m = sql ->
        record_result msgs sql res plot = older ++ [assistant_result sql res plot])
  /\ ((forall m, last msgs = Some m -> role m = "assistant" -> content m <> sql) ->
      record_result msgs sql res plot = msgs ++ [assistant_result sql res plot])
  /\ (forall res' plot',
        record_result (record_result msgs sql res plot) sql res' plot'
        = pop_duplicate msgs sql ++ [assistant_result sql res' plot']).
Proof.
  intros Hclean. split; [by apply record_result_clean|]. split; [|split].
  - intros older m -> Hr Hc. unfold record_result. by rewrite pop_duplicate_hit.
  - intros Hmiss. unfold record_result. by rewrite pop_duplicate_miss.
  - intros res' plot'. by rewrite record_result_twice.
Qed.

Lemma record_result_suppresses_duplicate_witness :
  has_adjacent_duplicates
    (record_result [user_message "Feedback: by month"; assistant_message "SELECT 1"]
                   "SELECT 1" [] false) = false.
Proof.
  apply (record_result_suppresses_duplicate
           [user_message "Feedback: by month"; assistant_message "SELECT 1"]
           "SELECT 1" [] false).
  reflexivity.
Defined.

(** ** Writing a chat and reading it back *)

Lemma exc_map_ok {A B} (f : A -> exc B) (g : A -> B) l :
  Forall (fun x => f x = Ok (g x)) l -> exc_map f l = Ok (map g l).
Proof. induction 1 as [|x l Hx _ IH]; [done|]. simpl. by rewrite Hx, IH. Qed.

Lemma option_map_all_ok {A B} (f : A -> option B) (g : A -> B) l :
  Forall (fun x => f x = Some (g x)) l -> option_map_all f l = Some (map g l).
Proof. induction 1 as [|x l Hx _ IH]; [done|]. simpl. by rewrite Hx, IH. Qed.

Lemma forallb_Forall {A} (p : A -> bool) l : forallb p l = true <-> Forall (fun x => p x = true) l.
Proof. rewrite forallb_forall, Forall_forall. split; intros H x Hx; apply H; by apply list_elem_of_In. Qed.

Lemma dump_cell_encoded c : encodable_cell c = true -> dump_cell c = Ok (encoded_cell c).
Proof. by destruct c as [| | | |[]]. Qed.

Lemma load_cell_encoded c :
  encodable_cell c = true -> load_cell (encoded_cell c) = Some (stored_cell c).
Proof. by destruct c as [| | | |[]]. Qed.

Lemma dump_row_encoded r :
  forallb (fun kv => encodable_cell (snd kv)) r = true -> dump_row r = Ok (encoded_row r).
Proof.
  intros H%forallb_Forall. unfold dump_row, encoded_row.
  rewrite (exc_map_ok _ (fun kv => (fst kv, encoded_cell (snd kv)))); [done|].
  eapply Forall_impl; [exact H|]. intros [k c] Hc; simpl in *.
  by rewrite dump_cell_encoded.
Qed.

Lemma option_map_all_map {A B C} (f : B -> option C) (h : A -> B) (g : A -> C) l :
  Forall (fun x => f (h x) = Some (g x)) l ->
  option_map_all f (map h l) = Some (map g l).
Proof. induction 1 as [|x l Hx _ IH]; [done|]. simpl. by rewrite Hx, IH. Qed.

Lemma load_row_encoded r :
  forallb (fun kv => encodable_cell (snd kv)) r = true ->
  load_row (encoded_row r) = Some (stored_row r).
Proof.
  intros H%forallb_Forall. unfold load_row, encoded_row, stored_row.
  apply option_map_all_map. eapply Forall_impl; [exact H|].
  intros [k c] Hc; simpl in *. by rewrite load_cell_encoded.
Qed.

Lemma dump_message_encoded m :
  encodable_message m = true -> dump_message m = Ok (encoded_message m).
Proof.
  unfold encodable_message, dump_message, encoded_message.
  destruct (result m) as [rows|]; [|done]. intros H%forallb_Forall.
  rewrite (exc_map_ok _ encoded_row); [done|].
  eapply Forall_impl; [exact H|]. intros r Hr. by apply dump_row_encoded.
Qed.

Lemma load_message_encoded m :
  encodable_message m = true -> load_message (encoded_message m) = Some (stored_form m).
Proof.
  unfold encodable_message, encoded_message, stored_form.
  destruct m as [r c [rows|] [b|]]; simpl; try done.
  all: intros H%forallb_Forall.
  all: rewrite (option_map_all_map _ _ stored_row); [done|].
  all: eapply Forall_impl; [exact H|]; intros ? ?; by apply load_row_encoded.
Qed.

Lemma encodable_messages msgs :
  encodable msgs = true <-> Forall (fun m => encodable_message m = true) msgs.
Proof. unfold encodable, all_cells. apply forallb_Forall. Qed.

Lemma dump_session_encoded msgs :
  encodable msgs = true ->
  dump_session (chat_title msgs) msgs = Ok (encoded_session msgs).
Proof.
  intros H%encodable_messages. unfold dump_session, encoded_session.
  rewrite (exc_map_ok _ encoded_message); [done|].
  eapply Forall_impl; [exact H|]. intros m. apply dump_message_encoded.
Qed.

Lemma load_messages_encoded msgs :
  encodable msgs = true ->
  option_map_all load_message (map encoded_message msgs) = Some (map stored_form msgs).
Proof.
  intros H%encodable_messages. apply option_map_all_map.
  eapply Forall_impl; [exact H|]. intros m. apply load_message_encoded.
Qed.





Lemma load_chat_encoded sid msgs m :
  encodable msgs = true ->
  chat_histories (app_of m) !! sid = Some (FileJson (encoded_session msgs)) ->
  load_chat sid m = (Next (map stored_form msgs), m).
Proof.
  intros Henc Hfile. unfold load_chat, mbind, script_bind, gets.
  rewrite Hfile. unfold encoded_session.
  change (json_get "messages" _) with (Some (JArr (map encoded_message msgs))).
  cbv iota beta. by rewrite (load_messages_encoded msgs Henc).
Qed.




(** ** Runs of the script *)

Lemma is_query_safe_truthy q : is_query_safe q = false -> truthy q = true.
Proof. by destruct q. Qed.

Ltac unfold_script :=
  unfold run_script, script_body, sidebar_new_chat, sidebar_manual_sql,
    sidebar_chat_history, stage_ask_question, stage_show_query, stage_ask_feedback,
    stage_get_feedback, reset_to_ask_question, save_current, save_chat_to_file,
    append_feedback_to_json, append_message, write_chat, ask_vanna, run_sql,
    generate_sql_with_feedback, try_except, show, emit, modify, gets, lift_exc,
    raise, st_rerun, next_uuid, mbind, script_bind, mret, script_ret.

(** C9: in AskQuestion a question that holds a forbidden keyword gets the
    error message and nothing else happens: the stage, the message list, the
    chat files and the feedback file are as before. *)
Theorem ask_question_rejects_unsafe w a question keyword :
  stage a = ask_question ->
  In keyword FORBIDDEN_KEYWORDS ->
  occurs_ignoring_case keyword question ->
  run_script w (ChatInput question) a = (a, [Shown st_error UNSAFE_QUESTION]).
Proof.
  intros Hstage Hin Hocc.
  assert (Hunsafe : is_query_safe question = false)
    by (apply is_query_safe_false; eauto).
  unfold_script. simpl.
  by rewrite Hstage, (is_query_safe_truthy _ Hunsafe), Hunsafe.
Qed.

Lemma ask_question_rejects_unsafe_witness :
  run_script sample_world (ChatInput "delete all orders") (new_session "s1" ∅ None)
  = (new_session "s1" ∅ None, [Shown st_error UNSAFE_QUESTION]).
Proof.
  apply (ask_question_rejects_unsafe sample_world (new_session "s1" ∅ None)
           "delete all orders" "DELETE").
  - reflexivity.
  - simpl. tauto.
  - exists "", "delete", " all orders". split; [reflexivity|]. simpl.
    repeat split; (left; reflexivity) || (right; reflexivity).
Defined.







Lemma reset_to_ask_question_blank m :
  exists a', reset_to_ask_question m = (Next tt, Machine a' (trace m) (uuid_calls m))
             /\ blank a'
             /\ session_id a' = session_id (app_of m)
             /\ messages a' = messages (app_of m)
             /\ chat_histories a' = chat_histories (app_of m)
             /\ feedback_json a' = feedback_json (app_of m).
Proof. eexists. split; [reflexivity|]. by repeat split. Qed.



Lemma encodable_app msgs msgs' :
  encodable (msgs ++ msgs') = encodable msgs && encodable msgs'.
Proof. unfold encodable, all_cells. apply forallb_app. Qed.








(** ** What gets stored *)











(** ** The invariant of the controller *)































(** ** Which texts reach the database *)

(** [DBConnector.execute_query] checks the text itself and sends nothing
    to the cursor when the check fails. *)
Lemma execute_query_rejects cursor_execute query :
  is_query_safe query = false ->
  execute_query cursor_execute query
  = (Raise "Query rejected: Write operations are not allowed.", []).
Proof. intros H. unfold execute_query. by rewrite H. Qed.

(** The manual path checks before it runs. *)
Lemma manual_sql_checked w a manual_sql :
  is_query_safe manual_sql = false -> stage a <> show_query ->
  snd (run_script w (ClickRunManualSQL manual_sql) a)
  = [Shown st_sidebar_error "Unsafe SQL detected. Only SELECT-like statements allowed."].
Proof.
  intros Hunsafe Hstage. unfold_script. simpl. rewrite Hunsafe. simpl.
  by destruct (stage a).
Qed.

(** ShowQuery hands the current SQL to [vn.run_sql] as it is. *)
Lemma show_query_runs_current_sql w a :
  stage a = show_query ->
  exists rest,
    snd (run_script w NoEvent a) = Executed (sql a) (vn_run_sql w (sql a)) :: rest.
Proof.
  intros Hstage. unfold_script. simpl. rewrite Hstage. simpl.
  destruct (vn_run_sql w (sql a)); simpl; [|eauto].
  destruct (truthy (session_id a)); simpl; destruct (dump_session _ _); simpl; eauto.
Qed.

(** C2: the check inside [DBConnector.execute_query] is not on the path the
    controller takes.  A generated statement that starts with [WITH] and
    deletes rows passes the shape check, fails the forbidden-keyword check,
    would be refused by [execute_query], and is run by ShowQuery. *)
Theorem show_query_runs_write_statement :
  is_query_safe CTE_DELETE = false
  /\ starts_like_query CTE_DELETE = true
  /\ (forall cursor_execute,
        execute_query cursor_execute CTE_DELETE
        = (Raise "Query rejected: Write operations are not allowed.", []))
  /\ stage (fst (run_script sample_write_generator (ChatInput "which orders are old")
                            (new_session "s1" ∅ None))) = show_query
  /\ sql (fst (run_script sample_write_generator (ChatInput "which orders are old")
                          (new_session "s1" ∅ None))) = CTE_DELETE
  /\ snd (run_script sample_write_generator NoEvent
            (fst (run_script sample_write_generator (ChatInput "which orders are old")
                    (new_session "s1" ∅ None))))
     = [Executed CTE_DELETE (Ok [])]
  /\ stage (fst (run_script sample_write_generator NoEvent
                   (fst (run_script sample_write_generator
                           (ChatInput "which orders are old")
                           (new_session "s1" ∅ None))))) = ask_feedback.
Proof.
  split_and!; [..|intros cursor_execute; by apply execute_query_rejects| | | |];
    vm_compute; reflexivity.
Qed.

(** * Part III: more of the code *)

(** ** The safety gate *)

Lemma upper_char_idem c : upper_char (upper_char c) = upper_char c.
Proof.
  unfold upper_char at 1. destruct (is_ascii_lower (upper_char c)) eqn:E; [|done].
  char_arith. rewrite nat_of_upper_char in E.
  destruct (is_ascii_lower c) eqn:E2; char_arith; lia.
Qed.

Lemma upper_lower_char c : upper_char (lower_char c) = upper_char c.
Proof.
  apply nat_of_ascii_inj. rewrite !nat_of_upper_char.
  destruct (is_ascii_lower (lower_char c)) eqn:E1; destruct (is_ascii_lower c) eqn:E2;
    char_arith; rewrite nat_of_lower_char in *;
    destruct (is_ascii_upper c) eqn:E3; char_arith; lia.
Qed.

Lemma upper_idem s : upper (upper s) = upper s.
Proof. unfold upper. induction s; simpl; [done|]. by rewrite upper_char_idem, IHs. Qed.

Lemma upper_lower s : upper (lower s) = upper s.
Proof.
  unfold upper, lower. induction s; simpl; [done|]. by rewrite upper_lower_char, IHs.
Qed.

Lemma occurs_ignoring_case_app keyword before text after :
  occurs_ignoring_case keyword text ->
  occurs_ignoring_case keyword (before +:+ text +:+ after).
Proof.
  intros (b & v & r & -> & Hv). exists (before +:+ b), v, (r +:+ after).
  split; [|done]. by rewrite !string_app_assoc.
Qed.

(** X1: the gate does not look at case, and a text that holds an unsafe text
    is unsafe. *)
Theorem is_query_safe_case_and_context query :
  is_query_safe (upper query) = is_query_safe query
  /\ is_query_safe (lower query) = is_query_safe query
  /\ (forall before after,
        is_query_safe query = false ->
        is_query_safe (before +:+ query +:+ after) = false).
Proof.
  split_and!.
  - unfold is_query_safe. by rewrite upper_idem.
  - unfold is_query_safe. by rewrite upper_lower.
  - intros before after (k & Hin & Hk)%is_query_safe_false.
    apply is_query_safe_false. exists k. split; [done|].
    by apply occurs_ignoring_case_app.
Qed.

Lemma is_query_safe_case_and_context_witness :
  is_query_safe ("select 1; " +:+ "Drop table t" +:+ " -- done") = false.
Proof.
  apply (is_query_safe_case_and_context "Drop table t"). reflexivity.
Defined.

(** ** [DBConnector.execute_query] *)

(** X2: a text the gate refuses never reaches the cursor; a text it lets
    through reaches it once, as it is; the call raises only the gate's error or
    the error of [cursor.execute], and a failing [fetchall] gives [None]. *)
Theorem execute_query_cursor_calls cursor_execute query :
  (is_query_safe query = false ->
   execute_query cursor_execute query
   = (Raise "Query rejected: Write operations are not allowed.", []))
  /\ (is_query_safe query = true ->
      snd (execute_query cursor_execute query) = [query]
      /\ match cursor_execute query with
         | Raise e => fst (execute_query cursor_execute query) = Raise e
         | Ok cur =>
             match fetchall cur with
             | Raise _ => fst (execute_query cursor_execute query) = Ok None
             | Ok _ => exists rows, fst (execute_query cursor_execute query) = Ok (Some rows)
             end
         end).
Proof.
  split; intros Hsafe; unfold execute_query; rewrite Hsafe; simpl; [done|].
  destruct (cursor_execute query) as [cur|e]; simpl; [|done].
  destruct (fetchall cur) as [results|e]; simpl; [|done].
  destruct (description cur) as [[|c cols]|]; simpl; eauto.
Qed.

Lemma execute_query_cursor_calls_witness :
  execute_query (fun _ => Raise "unreachable") "drop table t"
  = (Raise "Query rejected: Write operations are not allowed.", []).
Proof.
  apply (execute_query_cursor_calls (fun _ => Raise "unreachable") "drop table t").
  reflexivity.
Defined.

Lemma row_get_dict_set k k' v d :
  row_get k (dict_set k' v d) = if String.eqb k k' then Some v else row_get k d.
Proof.
  induction d as [|[k0 v0] d IH]; simpl.
  - done.
  - destruct (String.eqb_spec k' k0) as [->|Hne]; simpl.
    + by destruct (String.eqb k k0).
    + rewrite IH. destruct (String.eqb_spec k k0) as [->|]; [|done].
      destruct (String.eqb_spec k0 k') as [->|]; done.
Qed.

Lemma dict_set_keys k v d :
  map fst (dict_set k v d)
  = if decide (k ∈ map fst d) then map fst d else map fst d ++ [k].
Proof.
  induction d as [|[k0 v0] d IH]; simpl; [done|].
  destruct (String.eqb_spec k k0) as [->|Hne]; simpl.
  - rewrite decide_True by apply list_elem_of_here. done.
  - rewrite IH. destruct (decide (k ∈ map fst d)) as [Hin|Hnin].
    + rewrite decide_True by (by apply list_elem_of_further). done.
    + rewrite decide_False; [done|]. by intros [?|?]%elem_of_cons.
Qed.

Lemma dict_set_NoDup k v d : NoDup (map fst d) -> NoDup (map fst (dict_set k v d)).
Proof.
  intros Hd. rewrite dict_set_keys. destruct (decide (k ∈ map fst d)); [done|].
  apply NoDup_app. split_and!; [done| |apply NoDup_singleton].
  intros x Hx ->%list_elem_of_singleton. done.
Qed.

Lemma fold_dict_set kvs : forall d,
  NoDup (map fst d) ->
  NoDup (map fst (fold_left (fun d kv => dict_set (fst kv) (snd kv) d) kvs d))
  /\ forall k,
       row_get k (fold_left (fun d kv => dict_set (fst kv) (snd kv) d) kvs d)
       = match last_value k kvs with Some v => Some v | None => row_get k d end.
Proof.
  induction kvs as [|[k0 v0] kvs IH]; intros d Hd; simpl; [by split|].
  destruct (IH (dict_set k0 v0 d) (dict_set_NoDup k0 v0 d Hd)) as [Hnodup Hget].
  split; [done|]. intros k. rewrite Hget, row_get_dict_set.
  destruct (last_value k kvs); [done|]. by destruct (String.eqb k k0).
Qed.

Lemma dict_of_pairs_last_wins kvs :
  NoDup (map fst (dict_of_pairs kvs))
  /\ forall k, row_get k (dict_of_pairs kvs) = last_value k kvs.
Proof.
  destruct (fold_dict_set kvs [] (NoDup_nil_2)) as [Hnodup Hget].
  split; [done|]. intros k. unfold dict_of_pairs. rewrite Hget.
  by destruct (last_value k kvs).
Qed.

(** X3: when [execute_query] hands back dicts there is one for each fetched
    row, in order; a dict has each column name once, and under a name that is
    repeated in the description it holds the value of the last such column. *)
Theorem execute_query_dict_rows cursor_execute query rows :
  fst (execute_query cursor_execute query) = Ok (Some (FetchedDicts rows)) ->
  exists cur results cols,
    cursor_execute query = Ok cur
    /\ fetchall cur = Ok results
    /\ description cur = Some cols
    /\ Forall2 (fun d r => NoDup (map fst d)
                           /\ forall k, row_get k d = last_value k (combine cols r))
               rows results.
Proof.
  unfold execute_query. destruct (is_query_safe query); simpl; [|done].
  destruct (cursor_execute query) as [cur|e] eqn:Hcur; simpl; [|done].
  destruct (fetchall cur) as [results|e] eqn:Hfetch; simpl; [|done].
  destruct (description cur) as [[|c cols]|] eqn:Hdesc; simpl; try done.
  intros [= <-]. exists cur, results, (c :: cols).
  split; [done|]. split; [done|]. split; [done|].
  apply Forall2_fmap_l, Forall_Forall2_diag, Forall_forall.
  intros r _. apply dict_of_pairs_last_wins.
Qed.

Lemma execute_query_dict_rows_witness :
  exists cur results cols,
    (fun _ => Ok (CursorReply (Ok [[CInt 1; CInt 2]]) (Some ["a"; "a"]))) "select 1" = Ok cur
    /\ fetchall cur = Ok results
    /\ description cur = Some cols
    /\ Forall2 (fun d r => NoDup (map fst d)
                           /\ forall k, row_get k d = last_value k (combine cols r))
               [[("a", CInt 2)]] results.
Proof.
  apply (execute_query_dict_rows
           (fun _ => Ok (CursorReply (Ok [[CInt 1; CInt 2]]) (Some ["a"; "a"])))
           "select 1" [[("a", CInt 2)]]).
  reflexivity.
Defined.

(** ** [user_wants_plot] *)

Lemma prefix_app w s :
  String.prefix w s = true <-> exists after, s = w +:+ after.
Proof.
  revert s. induction w as [|c w IH]; intros s.
  - split; [by exists s|]. by destruct s.
  - destruct s as [|a s].
    + split; [done|]. intros [after Hs]. by rewrite string_app_cons in Hs.
    + rewrite prefix_cons, IH. split.
      * intros [-> [after ->]]. by exists after.
      * intros [after Hs]. rewrite string_app_cons in Hs. injection Hs as <- ->.
        split; [done|]. by exists after.
Qed.




Example user_wants_plot_examples :
  user_wants_plot "Please PLOT the sales" = true
  /\ user_wants_plot "draw, then chart it" = true
  /\ user_wants_plot "subplot of sales" = false
  /\ user_wants_plot "two plots" = false
  /\ user_wants_plot "plot_id per order" = false.
Proof. by vm_compute. Qed.

(** ** Chat files *)

(** X5: saving under a session id that is not empty writes the file of that
    id and no other, whether the dump succeeds or raises; the session id in
    memory stays. *)
Theorem save_chat_to_file_frame w msgs sid m :
  truthy sid = true ->
  (forall other, other <> sid ->
     chat_histories (app_of (snd (save_chat_to_file w msgs sid m))) !! other
     = chat_histories (app_of m) !! other)
  /\ is_Some (chat_histories (app_of (snd (save_chat_to_file w msgs sid m))) !! sid)
  /\ session_id (app_of (snd (save_chat_to_file w msgs sid m))) = session_id (app_of m)
  /\ messages (app_of (snd (save_chat_to_file w msgs sid m))) = messages (app_of m).
Proof.
  intros Hsid. unfold save_chat_to_file. rewrite Hsid.
  unfold mbind, script_bind, mret, script_ret, write_chat, modify, raise.
  destruct (dump_session _ _); simpl; (split; [|split; [|done]]).
  - intros other Hne. by rewrite lookup_insert_ne.
  - rewrite lookup_insert_eq. eauto.
  - intros other Hne. by rewrite lookup_insert_ne.
  - rewrite lookup_insert_eq. eauto.
Qed.

Lemma save_chat_to_file_frame_witness :
  chat_histories (app_of (snd (save_chat_to_file sample_world sample_chat "s1"
                                 (Machine (new_session "s1" ∅ None) [] 0)))) !! "s2"
  = None.
Proof.
  destruct (save_chat_to_file_frame sample_world sample_chat "s1"
              (Machine (new_session "s1" ∅ None) [] 0) eq_refl) as [Hother _].
  rewrite (Hother "s2"); [reflexivity|discriminate].
Defined.

Lemma load_chat_reads_only sid m : snd (load_chat sid m) = m.
Proof.
  unfold load_chat, mbind, script_bind, gets, mret, script_ret, raise.
  repeat case_match; done.
Qed.

(** X6: [load_chat] changes nothing; for an id without a file it gives the
    empty list; after [delete_chat] the id has no file, the other files are as
    they were, and loading the id gives the empty list. *)
Theorem delete_then_load_chat sid m :
  (forall other, snd (load_chat other m) = m)
  /\ (chat_histories (app_of m) !! sid = None -> load_chat sid m = (Next [], m))
  /\ chat_histories (app_of (snd (delete_chat sid m))) !! sid = None
  /\ (forall other, other <> sid ->
        chat_histories (app_of (snd (delete_chat sid m))) !! other
        = chat_histories (app_of m) !! other)
  /\ fst (load_chat sid (snd (delete_chat sid m))) = Next [].
Proof.
  split_and!.
  - intros other. apply load_chat_reads_only.
  - intros Hnone. unfold load_chat, mbind, script_bind, gets. by rewrite Hnone.
  - simpl. apply lookup_delete_eq.
  - intros other Hne. simpl. by apply lookup_delete_ne.
  - unfold load_chat, mbind, script_bind, gets. simpl. by rewrite lookup_delete_eq.
Qed.

Lemma delete_then_load_chat_witness :
  load_chat "s9" (Machine (new_session "s1" ∅ None) [] 0)
  = (Next [], Machine (new_session "s1" ∅ None) [] 0).
Proof.
  apply (delete_then_load_chat "s9" (Machine (new_session "s1" ∅ None) [] 0)).
  reflexivity.
Defined.

Lemma exc_map_raises {A B} (f : A -> exc B) (p : A -> bool) (Q : string -> Prop) l :
  (forall x, p x = true -> exists y, f x = Ok y) ->
  (forall x, p x = false -> exists e, Q e /\ f x = Raise e) ->
  forallb p l = false ->
  exists e, Q e /\ exc_map f l = Raise e.
Proof.
  intros Hok Hbad. induction l as [|x l IH]; simpl; [done|].
  destruct (p x) eqn:Hx; simpl.
  - intros Hl. destruct (Hok x Hx) as [y ->]. destruct (IH Hl) as (e & He & ->).
    simpl. eauto.
  - intros _. destruct (Hbad x Hx) as (e & He & ->). simpl. eauto.
Qed.

Lemma dump_cell_raises c :
  encodable_cell c = false -> exists e, not_serializable e /\ dump_cell c = Raise e.
Proof.
  destruct c as [| | | |[d|t]]; try done. intros _. eexists. split; [by exists t|done].
Qed.

Lemma dump_row_raises r :
  forallb (fun kv => encodable_cell (snd kv)) r = false ->
  exists e, not_serializable e /\ dump_row r = Raise e.
Proof.
  intros H. unfold dump_row.
  destruct (exc_map_raises
              (fun kv => exc_bind (dump_cell (snd kv)) (fun v => Ok (fst kv, v)))
              (fun kv => encodable_cell (snd kv)) not_serializable r) as (e & He & ->);
    [| |done|by eauto].
  - intros [k c] Hc. simpl in *. rewrite dump_cell_encoded by done. simpl. eauto.
  - intros [k c] Hc. simpl in *. destruct (dump_cell_raises c Hc) as (e & He & ->).
    simpl. eauto.
Qed.

Lemma dump_message_raises m :
  encodable_message m = false -> exists e, not_serializable e /\ dump_message m = Raise e.
Proof.
  unfold encodable_message, dump_message. destruct (result m) as [rows|]; [|done].
  intros H.
  destruct (exc_map_raises dump_row
              (forallb (fun kv => encodable_cell (snd kv))) not_serializable rows)
    as (e & He & ->); [| |done|by eauto].
  - intros r Hr. rewrite dump_row_encoded by done. eauto.
  - intros r Hr. by apply dump_row_raises.
Qed.

Lemma dump_session_raises title msgs :
  encodable msgs = false -> exists e, not_serializable e /\ dump_session title msgs = Raise e.
Proof.
  intros H. unfold dump_session.
  destruct (exc_map_raises dump_message encodable_message not_serializable msgs)
    as (e & He & ->); [| |done|by eauto].
  - intros m Hm. rewrite dump_message_encoded by done. eauto.
  - intros m Hm. by apply dump_message_raises.
Qed.

(** X7: when some result value is an object [json] cannot write, saving
    raises the [TypeError] of [serialize_datetime]; the file of the session is
    left cut short, so that the sidebar no longer lists it and [load_chat]
    fails on it. *)
Theorem save_chat_to_file_unencodable w msgs sid m :
  truthy sid = true -> encodable msgs = false ->
  exists e m',
    save_chat_to_file w msgs sid m = (Raised e, m')
    /\ not_serializable e
    /\ chat_histories (app_of m') !! sid = Some FileTruncated
    /\ listed (chat_histories (app_of m')) sid = false
    /\ fst (load_chat sid m') = Raised "JSONDecodeError".
Proof.
  intros Hsid Henc. destruct (dump_session_raises (chat_title msgs) msgs Henc) as (e & He & Hdump).
  exists e. eexists. unfold save_chat_to_file. rewrite Hsid.
  unfold mbind, script_bind, mret, script_ret, write_chat, modify, raise.
  rewrite Hdump. simpl. split; [reflexivity|]. split; [done|].
  unfold listed, load_chat, mbind, script_bind, gets. simpl.
  rewrite lookup_insert_eq. done.
Qed.

Lemma save_chat_to_file_unencodable_witness :
  exists e m',
    save_chat_to_file sample_world
      [assistant_result "SELECT SUM(spend) FROM orders"
                        [[("s", CObj (OOther "<class 'decimal.Decimal'>"))]] false]
      "s1" (Machine (new_session "s1" ∅ None) [] 0) = (Raised e, m')
    /\ not_serializable e.
Proof.
  destruct (save_chat_to_file_unencodable sample_world
              [assistant_result "SELECT SUM(spend) FROM orders"
                                [[("s", CObj (OOther "<class 'decimal.Decimal'>"))]] false]
              "s1" (Machine (new_session "s1" ∅ None) [] 0) eq_refl eq_refl)
    as (e & m' & Hsave & He & _).
  exists e, m'. split; [exact Hsave | exact He].
Defined.

(** ** The stages, run by run *)

(** X8: when the query runs and its result can be written, ShowQuery keeps
    the result, records the turn (after dropping a duplicate), saves the chat
    under the session id and moves to AskFeedback; question and SQL stay. *)
Theorem show_query_success w a df :
  stage a = show_query -> truthy (session_id a) = true ->
  vn_run_sql w (sql a) = Ok df ->
  encodable (record_result (messages a) (sql a) df (user_wants_plot (user_question a)))
  = true ->
  exists a',
    run_script w NoEvent a = (a', [Executed (sql a) (Ok df)])
    /\ stage a' = ask_feedback
    /\ query_result a' = Some df
    /\ messages a'
       = record_result (messages a) (sql a) df (user_wants_plot (user_question a))
    /\ chat_histories a'
       = <[session_id a := FileJson (encoded_session (messages a'))]> (chat_histories a)
    /\ (session_id a', user_question a', sql a', user_feedback a', feedback_json a')
       = (session_id a, user_question a, sql a, user_feedback a, feedback_json a).
Proof.
  intros Hstage Hsid Hrun Henc. eexists. unfold_script. simpl.
  rewrite Hstage. simpl. rewrite Hrun. simpl. rewrite Hsid. simpl.
  rewrite (dump_session_encoded _ Henc). simpl. by split_and!.
Qed.

Lemma show_query_success_witness :
  exists a',
    run_script sample_generator NoEvent
      (App "s1" show_query [user_message "total spend"] "total spend" "SELECT 1" None ""
           ∅ None)
    = (a', [Executed "SELECT 1" (Ok [])])
    /\ stage a' = ask_feedback.
Proof.
  destruct (show_query_success sample_generator
              (App "s1" show_query [user_message "total spend"] "total spend" "SELECT 1"
                   None "" ∅ None) [] eq_refl eq_refl eq_refl eq_refl)
    as (a' & Hrun & Hstage & _).
  exists a'. split; [exact Hrun | exact Hstage].
Defined.

(** X9: when the query runs but its result holds an object [json] cannot
    write, ShowQuery reports an execution error with the [TypeError] text and
    resets the conversation, although the statement was executed; the new turn
    stays in the message list in memory and the chat file is left cut short. *)
Theorem show_query_unencodable_result w a df :
  stage a = show_query -> truthy (session_id a) = true ->
  vn_run_sql w (sql a) = Ok df ->
  encodable (record_result (messages a) (sql a) df (user_wants_plot (user_question a)))
  = false ->
  exists a' e,
    run_script w NoEvent a
    = (a', [Executed (sql a) (Ok df);
            Shown st_error ("Error executing query: " +:+ e)])
    /\ not_serializable e
    /\ blank a'
    /\ messages a'
       = record_result (messages a) (sql a) df (user_wants_plot (user_question a))
    /\ chat_histories a' = <[session_id a := FileTruncated]> (chat_histories a).
Proof.
  intros Hstage Hsid Hrun Henc.
  destruct (dump_session_raises
              (chat_title (record_result (messages a) (sql a) df
                             (user_wants_plot (user_question a))))
              _ Henc) as (e & He & Hdump).
  eexists. exists e. unfold_script. simpl.
  rewrite Hstage. simpl. rewrite Hrun. simpl. rewrite Hsid. simpl.
  rewrite Hdump. simpl. by split_and!.
Qed.

Lemma show_query_unencodable_result_witness :
  exists a' e,
    run_script (World (fun _ => Raise "offline")
                      (fun _ => Ok [[("s", CObj (OOther "<class 'decimal.Decimal'>"))]])
                      (fun _ => "0000"))
               NoEvent
               (App "s1" show_query [user_message "total spend"] "total spend"
                    "SELECT SUM(spend) AS s FROM orders" None "" ∅ None)
    = (a', [Executed "SELECT SUM(spend) AS s FROM orders"
                     (Ok [[("s", CObj (OOther "<class 'decimal.Decimal'>"))]]);
            Shown st_error ("Error executing query: " +:+ e)])
    /\ blank a'.
Proof.
  destruct (show_query_unencodable_result
              (World (fun _ => Raise "offline")
                     (fun _ => Ok [[("s", CObj (OOther "<class 'decimal.Decimal'>"))]])
                     (fun _ => "0000"))
              (App "s1" show_query [user_message "total spend"] "total spend"
                   "SELECT SUM(spend) AS s FROM orders" None "" ∅ None)
              [[("s", CObj (OOther "<class 'decimal.Decimal'>"))]]
              eq_refl eq_refl eq_refl eq_refl)
    as (a' & e & Hrun & _ & Hblank & _).
  exists a', e. split; [exact Hrun | exact Hblank].
Defined.



(** X11: when the generator raises on a fresh question, the question turn
    is already in the message list and in the chat file; the error is shown and
    the stage and the current SQL are as before. *)
Theorem ask_question_generator_error w a question err :
  stage a = ask_question -> truthy (session_id a) = true ->
  truthy question = true -> is_query_safe question = true ->
  encodable (messages a) = true ->
  vn_generate_sql w (build_prompt question None
                                  (Some (messages a ++ [user_message question])))
  = Raise err ->
  exists a',
    run_script w (ChatInput question) a
    = (a', [Generated (build_prompt question None
                                    (Some (messages a ++ [user_message question])))
                      (Raise err);
            Shown st_error ("Error: " +:+ err)])
    /\ messages a' = messages a ++ [user_message question]
    /\ chat_histories a'
       = <[session_id a := FileJson (encoded_session (messages a'))]> (chat_histories a)
    /\ user_question a' = question
    /\ (stage a', sql a', query_result a', feedback_json a')
       = (ask_question, sql a, query_result a, feedback_json a).
Proof.
  intros Hstage Hsid Hq Hsafe Henc Hreply.
  assert (Henc' : encodable (messages a ++ [user_message question]) = true)
    by (by rewrite encodable_app, Henc).
  eexists. unfold_script. simpl. rewrite Hstage. simpl. rewrite Hq, Hsafe. simpl.
  rewrite Hsid. simpl. rewrite (dump_session_encoded _ Henc'). simpl.
  rewrite Hreply. simpl. split_and!; try done. simpl. by rewrite Hstage.
Qed.

Lemma ask_question_generator_error_witness :
  exists a',
    run_script sample_world (ChatInput "total spend") (new_session "s1" ∅ None)
    = (a', [Generated (build_prompt "total spend" None (Some [user_message "total spend"]))
                      (Raise "offline");
            Shown st_error ("Error: " +:+ "offline")])
    /\ messages a' = [user_message "total spend"].
Proof.
  destruct (ask_question_generator_error sample_world (new_session "s1" ∅ None)
              "total spend" "offline" eq_refl eq_refl eq_refl eq_refl eq_refl eq_refl)
    as (a' & Hrun & Hmsgs & _).
  exists a'. split; [exact Hrun | exact Hmsgs].
Defined.

Lemma strip_blank s : all_chars is_space s = true -> strip s = "".
Proof. intros H. unfold strip. by rewrite lstrip_blank. Qed.

(** X12: feedback that is empty or all whitespace is not sent anywhere: the
    generator is not called, no record and no turn is added, the stage stays
    GetFeedback, and the only thing shown is the warning. *)
Theorem get_feedback_blank w a typed :
  stage a = get_feedback -> all_chars is_space typed = true ->
  run_script w (ClickSubmitFeedback typed) a
  = (with_user_feedback typed a, [Shown st_warning NO_FEEDBACK]).
Proof.
  intros Hstage Hblank. unfold_script. simpl. rewrite Hstage. simpl.
  by rewrite (strip_blank _ Hblank).
Qed.

Lemma get_feedback_blank_witness :
  run_script sample_generator (ClickSubmitFeedback "   ") sample_feedback_state
  = (with_user_feedback "   " sample_feedback_state, [Shown st_warning NO_FEEDBACK]).
Proof.
  apply (get_feedback_blank sample_generator sample_feedback_state "   "); reflexivity.
Defined.

(** ** Manual SQL *)

(** X13: outside ShowQuery a manual run leaves the conversation (stage,
    question, SQL, result, feedback text) as it is.  Text the gate refuses is
    not run and nothing is stored; text that runs is stored as a user turn,
    followed by the note turn with the result, and the chat is saved; when the
    run raises, the error is shown and nothing is stored. *)
Theorem manual_sql_run w a manual_sql :
  stage a <> show_query ->
  conversation (fst (run_script w (ClickRunManualSQL manual_sql) a)) = conversation a
  /\ (is_query_safe manual_sql = false ->
      run_script w (ClickRunManualSQL manual_sql) a
      = (a, [Shown st_sidebar_error UNSAFE_MANUAL_SQL]))
  /\ (forall err,
        is_query_safe manual_sql = true -> vn_run_sql w manual_sql = Raise err ->
        run_script w (ClickRunManualSQL manual_sql) a
        = (a, [Executed manual_sql (Raise err);
               Shown st_sidebar_error ("Error: " +:+ err)]))
  /\ (forall df,
        is_query_safe manual_sql = true -> vn_run_sql w manual_sql = Ok df ->
        truthy (session_id a) = true ->
        encodable (messages a ++ [user_message manual_sql;
                                  assistant_result "Manual SQL Execution" df
                                                   (user_wants_plot manual_sql)]) = true ->
        messages (fst (run_script w (ClickRunManualSQL manual_sql) a))
        = messages a ++ [user_message manual_sql;
                         assistant_result "Manual SQL Execution" df
                                          (user_wants_plot manual_sql)]
        /\ chat_histories (fst (run_script w (ClickRunManualSQL manual_sql) a))
           = <[session_id a :=
                 FileJson (encoded_session
                             (messages a ++ [user_message manual_sql;
                                             assistant_result "Manual SQL Execution" df
                                               (user_wants_plot manual_sql)]))]>
               (chat_histories a)).
Proof.
  intros Hstage. split_and!.
  - destruct a as [sid stg msgs uq sq qr uf files fb]. simpl in Hstage.
    unfold conversation. unfold_script. simpl.
    destruct stg; repeat (case_match; simpl in *; simplify_eq; try done).
  - intros Hunsafe. destruct a as [sid stg msgs uq sq qr uf files fb]. simpl in Hstage.
    unfold_script. simpl. rewrite Hunsafe. simpl. by destruct stg.
  - intros err Hsafe Herr. destruct a as [sid stg msgs uq sq qr uf files fb].
    simpl in Hstage. unfold_script. simpl. rewrite Hsafe. simpl. rewrite Herr. simpl.
    by destruct stg.
  - intros df Hsafe Hdf Hsid Henc. unfold_script. simpl. rewrite Hsafe. simpl.
    rewrite Hdf. simpl. rewrite Hsid. simpl.
    rewrite <- !app_assoc. simpl. rewrite (dump_session_encoded _ Henc). simpl. done.
Qed.

Lemma manual_sql_run_witness :
  conversation (fst (run_script sample_generator (ClickRunManualSQL "select 1")
                                sample_asked_state))
  = conversation sample_asked_state.
Proof.
  apply (manual_sql_run sample_generator sample_asked_state "select 1"). discriminate.
Defined.

(** ** What every run keeps *)

Ltac run_all :=
  unfold_script;
  unfold load_chat, delete_chat, clear_session, listed, gets, mbind, script_bind, mret,
    script_ret, raise, modify; simpl;
  repeat (case_match; simpl in *; simplify_eq; try done).




(** X15: memory and disk agree after every change: when a run other than
    New Chat or Load leaves the message list changed, and the list can be
    written, the file of the session holds exactly that list. *)
Theorem changed_messages_are_saved w e a :
  truthy (session_id a) = true ->
  e <> ClickNewChat -> (forall sid, e <> ClickLoad sid) ->
  messages (fst (run_script w e a)) <> messages a ->
  encodable (messages (fst (run_script w e a))) = true ->
  session_id (fst (run_script w e a)) = session_id a
  /\ chat_histories (fst (run_script w e a)) !! session_id a
     = Some (FileJson (encoded_session (messages (fst (run_script w e a))))).
Proof.
  destruct a as [sid stg msgs uq sq qr uf files fb]. simpl.
  intros Hsid Hnew Hload.
  destruct e, stg; try done; try (by destruct (Hload chat_session_id)); run_all.
  all: intros Hchanged Henc; simpl in *; try done; try congruence.
  all: repeat match goal with
         | H : dump_session _ _ = _ |- _ =>
             rewrite (dump_session_encoded _ Henc) in H; simplify_eq
         end.
  all: split; [done|]; by rewrite lookup_insert_eq.
Qed.

Lemma changed_messages_are_saved_witness :
  chat_histories (fst (run_script sample_world (ChatInput "total spend")
                                  (new_session "s1" ∅ None))) !! "s1"
  = Some (FileJson (encoded_session [user_message "total spend"])).
Proof.
  apply (changed_messages_are_saved sample_world (ChatInput "total spend")
           (new_session "s1" ∅ None)); try done.
Defined.

(** ** Invariants of the conversation *)













(** ** The stages *)

Lemma run_script_stage_invariant w e a :
  stage_invariant a -> stage_invariant (fst (run_script w e a)).
Proof.
  destruct (run_script w e a) as [a' tr] eqn:Hrun. simpl. revert Hrun.
  destruct a as [sid stg msgs uq sq qr uf files fb].
  unfold stage_invariant at 1. simpl. intros Hrun (Hask & Hother & Hresult). revert Hrun.
  destruct stg;
    [ destruct (Hask eq_refl) as (-> & -> & ->)
    | pose proof (Hother ltac:(done)) as Hq
    | pose proof (Hother ltac:(done)) as Hq;
      destruct (Hresult (or_introl eq_refl)) as [df ->]
    | pose proof (Hother ltac:(done)) as Hq;
      destruct (Hresult (or_intror eq_refl)) as [df ->] ];
    clear Hask Hother Hresult.
  all: destruct e; run_all.
  all: intros [= <- <-]; unfold stage_invariant; simpl in *; split_and!; intros;
    try done; try congruence; try (by eexists); try (by destruct_or!).
Qed.

(** X17: what the stages can rely on.  In any state the controller gets to
    from a fresh session: in AskQuestion there is no SQL, no result and no
    feedback text left over; outside AskQuestion the question is not empty;
    and in AskFeedback and GetFeedback there is a query result. *)
Theorem stages_keep_their_state sid files fb a :
  reachable_from (new_session sid files fb) a -> stage_invariant a.
Proof.
  induction 1 as [|w e a Hreach IH].
  - split_and!; [done| |]; simpl; intros; [done|by destruct_or!].
  - by apply run_script_stage_invariant.
Qed.

Lemma stages_keep_their_state_witness :
  stage_invariant
    (fst (run_script sample_generator NoEvent
            (fst (run_script sample_generator (ChatInput "total spend")
                    (new_session "s1" ∅ None))))).
Proof.
  apply (stages_keep_their_state "s1" ∅ None).
  apply reach_run, reach_run, reach_start.
Defined.

(** ** Schema and training *)

Lemma first_seen_elem l x : x ∈ first_seen l <-> x ∈ l.
Proof.
  induction l as [|k l IH]; [done|]. simpl.
  rewrite !elem_of_cons, list_elem_of_filter, IH.
  destruct (decide (x = k)); tauto.
Qed.

Lemma first_seen_NoDup l : NoDup (first_seen l).
Proof.
  induction l as [|k l IH]; simpl; [constructor|].
  apply NoDup_cons. split; [|by apply NoDup_filter].
  rewrite list_elem_of_filter. by intros [Hne _].
Qed.

Lemma first_seen_snoc l x :
  first_seen (l ++ [x]) = if decide (x ∈ l) then first_seen l else first_seen l ++ [x].
Proof.
  induction l as [|k l IH]; simpl.
  - destruct (decide (x ∈ [])) as [Hin|_]; [by apply elem_of_nil in Hin|done].
  - rewrite IH. destruct (decide (x ∈ l)) as [Hin|Hout].
    + rewrite decide_True; [done|]. by apply list_elem_of_further.
    + rewrite filter_app, filter_cons, filter_nil.
      destruct (decide (x = k)) as [->|Hne].
      * rewrite decide_False by (by intros ?). rewrite app_nil_r.
        rewrite decide_True; [done|]. apply list_elem_of_here.
      * rewrite decide_True by done. rewrite decide_False; [done|].
        rewrite elem_of_cons. tauto.
Qed.

Lemma setdefault_append_miss (f : string -> list string) keys t line :
  t ∉ keys ->
  setdefault_append t line (map (fun k => (k, f k)) keys)
  = map (fun k => (k, f k)) keys ++ [(t, [line])].
Proof.
  induction keys as [|k keys IH]; [done|]. intros Hout. simpl.
  apply not_elem_of_cons in Hout as [Hne Hout].
  destruct (String.eqb_spec t k) as [->|_]; [done|]. by rewrite IH.
Qed.

Lemma setdefault_append_hit (f : string -> list string) keys t line :
  NoDup keys -> t ∈ keys ->
  setdefault_append t line (map (fun k => (k, f k)) keys)
  = map (fun k => (k, if decide (k = t) then f k ++ [line] else f k)) keys.
Proof.
  induction keys as [|k keys IH]; intros Hnodup Hin; [by apply elem_of_nil in Hin|].
  apply NoDup_cons in Hnodup as [Hfresh Hnodup]. simpl.
  destruct (String.eqb_spec t k) as [->|Hne].
  - rewrite decide_True by done. f_equal. apply map_ext_in. intros k' Hk'.
    apply list_elem_of_In in Hk'. rewrite decide_False; [done|]. by intros ->.
  - rewrite decide_False by done. f_equal. apply IH; [done|].
    apply elem_of_cons in Hin as [->|Hin]; done.
Qed.

Lemma group_by_table_snoc rows r :
  group_by_table (rows ++ [r])
  = setdefault_append (table_of r) (column_line r) (group_by_table rows).
Proof. unfold group_by_table. by rewrite fold_left_app. Qed.

Lemma columns_of_snoc t rows r :
  columns_of t (rows ++ [r])
  = if decide (t = table_of r) then columns_of t rows ++ [column_line r]
    else columns_of t rows.
Proof.
  unfold columns_of. rewrite filter_app, filter_cons, filter_nil, map_app.
  destruct (decide (t = table_of r)) as [->|Hne].
  - by rewrite decide_True.
  - rewrite decide_False by done. simpl. by rewrite app_nil_r.
Qed.

Lemma columns_of_absent t rows : t ∉ map table_of rows -> columns_of t rows = [].
Proof.
  intros Hout. unfold columns_of.
  induction rows as [|r rows IH]; [done|]. simpl in Hout.
  apply not_elem_of_cons in Hout as [Hne Hout].
  rewrite filter_cons, decide_False by done. by apply IH.
Qed.

Lemma group_by_table_grouped rows :
  group_by_table rows
  = map (fun t => (t, columns_of t rows)) (first_seen (map table_of rows)).
Proof.
  induction rows as [|r rows IH] using rev_ind; [done|].
  rewrite group_by_table_snoc, IH, map_app. simpl. rewrite first_seen_snoc.
  destruct (decide (table_of r ∈ map table_of rows)) as [Hin|Hout].
  - rewrite setdefault_append_hit;
      [|apply first_seen_NoDup|by apply first_seen_elem].
    apply map_ext. intros t. rewrite columns_of_snoc.
    by destruct (decide (t = table_of r)).
  - rewrite setdefault_append_miss by (by rewrite first_seen_elem).
    rewrite map_app. simpl. f_equal.
    + apply map_ext_in. intros t Ht%list_elem_of_In. rewrite first_seen_elem in Ht.
      rewrite columns_of_snoc, decide_False; [done|]. by intros ->.
    + rewrite columns_of_snoc, decide_True by done.
      by rewrite (columns_of_absent _ _ Hout).
Qed.

(** X18: the schema text has one [CREATE TABLE] entry for each table, in the
    order in which the tables first appear in the rows, and the entry of a
    table lists the columns of all its rows, in row order, also when the rows
    of the table do not follow one another; no table has two entries. *)
Theorem group_by_table_spec rows :
  group_by_table rows
  = map (fun t => (t, columns_of t rows)) (first_seen (map table_of rows))
  /\ NoDup (map fst (group_by_table rows)).
Proof.
  split; [apply group_by_table_grouped|].
  rewrite group_by_table_grouped, map_map. simpl. rewrite map_id.
  apply first_seen_NoDup.
Qed.

Example group_by_table_sample :
  group_by_table sample_rows
  = [("invoices", ["id INT"; "amount DECIMAL"; "paid_at DATETIME"]);
     ("vendors", ["id INT"])].
Proof. reflexivity. Qed.

Lemma join_nonempty sep p rest : p <> "" -> join sep (p :: rest) <> "".
Proof.
  intros Hp. simpl. destruct rest; [done|]. destruct p; [done|].
  by rewrite string_app_cons.
Qed.

Lemma ddl_of_rows_empty rows : ddl_of_rows rows = "" <-> rows = [].
Proof.
  split; [|by intros ->].
  destruct rows as [|r rows]; [done|]. intros H. exfalso. revert H.
  unfold ddl_of_rows. rewrite group_by_table_grouped. simpl.
  apply join_nonempty. unfold create_table. by rewrite string_app_cons.
Qed.

Ltac run_trainer :=
  unfold train_vanna, fetch_schema_mysql, fetch_schema_sqlserver, fetch_schema,
    DBConnector, train, trainer_lift, trainer_raise, mbind, trainer_bind, mret,
    trainer_ret; simpl.

Lemma train_vanna_connected w kind feedback_json_path s :
  connects w kind ->
  train_vanna w feedback_json_path s
  = match fetch_schema (schema_driver w kind) with
    | Raise e => (Raise e, s)
    | Ok (Some ((String _ _) as ddl)) =>
        (train w (TrainDdl ddl);;
         train w (TrainDocumentation DOCUMENTATION);;
         match feedback_json_path with
         | Some ((String _ _) as path) =>
             feedback_list ← load_or_create_feedback_json w path;
             items ← trainer_lift (iterate feedback_list);
             train_feedback w items
         | _ => mret tt
         end) s
    | Ok _ => (Raise FAILED_TO_FETCH_SCHEMA, s)
    end.
Proof.
  intros (Htype & Hdb & Hvanna & Hvn).
  unfold train_vanna, DBConnector, fetch_schema_mysql, fetch_schema_sqlserver, trainer_lift,
    trainer_raise, mbind, trainer_bind. rewrite Htype.
  destruct kind; simpl; rewrite Hdb; simpl; rewrite Hvanna; simpl; rewrite Hvn;
    by destruct (fetch_schema _) as [[[|]|]|].
Qed.

(** X19: without a schema nothing is trained: when the schema connection
    fails, the schema query raises, or the database has no column at all,
    [train_vanna] raises its schema error, has trained nothing and has not
    touched a file. *)
Theorem train_vanna_without_schema w kind feedback_json_path s :
  connects w kind -> without_schema (schema_driver w kind) ->
  train_vanna w feedback_json_path s = (Raise FAILED_TO_FETCH_SCHEMA, s).
Proof.
  intros Hconn Hschema. rewrite (train_vanna_connected _ kind) by done.
  by destruct Hschema as [[e ->]|[[e ->]| ->]].
Qed.

Lemma train_vanna_without_schema_witness :
  train_vanna
    {| DB_TYPE := Some "sqlserver";
       connector_connect := fun _ => Ok tt;
       MyVanna := Ok tt;
       vn_connect := fun _ => Ok tt;
       schema_driver := fun _ => Connected (Ok []) (Ok tt);
       vn_train := fun _ => Ok tt;
       may_create := fun _ => true |}
    (Some "feedback.json") (TrainerState [] ∅)
  = (Raise FAILED_TO_FETCH_SCHEMA, TrainerState [] ∅).
Proof.
  apply (train_vanna_without_schema _ sqlserver).
  - by repeat split.
  - by right; right.
Defined.

(** X20: with a schema and no feedback path (none, or the empty text) the
    model is trained on exactly two things, in this order: the schema text
    and the fixed description of the database. *)
Theorem train_vanna_without_feedback_path w kind rows feedback_json_path s :
  connects w kind ->
  schema_driver w kind = Connected (Ok rows) (Ok tt) -> rows <> [] ->
  (forall t, vn_train w t = Ok tt) ->
  feedback_json_path = None \/ feedback_json_path = Some "" ->
  train_vanna w feedback_json_path s = (Ok tt, trained_on_schema rows s).
Proof.
  intros Hconn Hschema Hrows Htrain Hpath.
  rewrite (train_vanna_connected _ kind) by done. rewrite Hschema. simpl.
  destruct (ddl_of_rows rows) as [|c ddl] eqn:Hddl; [by apply ddl_of_rows_empty in Hddl|].
  unfold train, mbind, trainer_bind. rewrite !Htrain. simpl.
  unfold trained_on_schema. rewrite Hddl, <- app_assoc.
  by destruct Hpath as [-> | ->].
Qed.

Lemma train_vanna_without_feedback_path_witness :
  train_vanna sample_training_world None (TrainerState [] ∅)
  = (Ok tt, trained_on_schema sample_rows (TrainerState [] ∅)).
Proof.
  apply (train_vanna_without_feedback_path sample_training_world mysql sample_rows).
  - by repeat split.
  - reflexivity.
  - discriminate.
  - reflexivity.
  - by left.
Defined.

(** X21: the model the application starts with never sees the recorded
    feedback: whatever the database and the model do, [get_vanna] leaves the
    files as they are, and its outcome and the calls to [vn.train] are the
    same whatever the files hold. *)
Theorem get_vanna_leaves_feedback_alone w t fs fs' :
  feedback_files (snd (get_vanna w (TrainerState t fs))) = fs
  /\ fst (get_vanna w (TrainerState t fs')) = fst (get_vanna w (TrainerState t fs))
  /\ trained (snd (get_vanna w (TrainerState t fs')))
     = trained (snd (get_vanna w (TrainerState t fs))).
Proof.
  unfold get_vanna. run_trainer. unfold exc_bind.
  repeat (case_match; simpl in *; simplify_eq; try done).
Qed.

Lemma get_stripped_encoded fb :
  get_stripped "user_question" (encoded_feedback fb) = Ok (strip (fb_user_question fb))
  /\ get_stripped "correct_sql" (encoded_feedback fb) = Ok (strip (fb_correct_sql fb)).
Proof. done. Qed.

Lemma train_feedback_replay w good tail s :
  (forall t, vn_train w t = Ok tt) ->
  train_feedback w (map encoded_feedback good ++ tail) s
  = train_feedback w tail (TrainerState (trained s ++ replayed good) (feedback_files s)).
Proof.
  intros Htrain. revert s. induction good as [|fb good IH]; intros [t fs].
  - unfold replayed. simpl. by rewrite app_nil_r.
  - change (map encoded_feedback (fb :: good) ++ tail)
      with (encoded_feedback fb :: (map encoded_feedback good ++ tail)).
    destruct (get_stripped_encoded fb) as [Hq Hsql].
    unfold train_feedback; fold train_feedback.
    unfold mbind, trainer_bind, trainer_lift. rewrite Hq, Hsql.
    change (truthy (strip (fb_user_question fb)) && truthy (strip (fb_correct_sql fb)))
      with (replayable fb).
    unfold replayed. rewrite filter_cons.
    destruct (replayable fb) eqn:Hrep.
    + rewrite decide_True by done. unfold train. rewrite Htrain. simpl. rewrite IH. simpl.
      by rewrite <- app_assoc.
    + rewrite decide_False by (by intros ?). simpl. by rewrite IH.
Qed.

Lemma train_vanna_with_feedback_file w kind rows path data s :
  connects w kind ->
  schema_driver w kind = Connected (Ok rows) (Ok tt) -> rows <> [] ->
  (forall t, vn_train w t = Ok tt) ->
  truthy path = true ->
  feedback_files s !! path = Some (FileJson data) ->
  train_vanna w (Some path) s
  = match iterate data with
    | Ok items => train_feedback w items (trained_on_schema rows s)
    | Raise e => (Raise e, trained_on_schema rows s)
    end.
Proof.
  intros Hconn Hschema Hrows Htrain Hpath Hfile.
  rewrite (train_vanna_connected _ kind) by done. rewrite Hschema. simpl.
  destruct (ddl_of_rows rows) as [|c ddl] eqn:Hddl; [by apply ddl_of_rows_empty in Hddl|].
  destruct path as [|c' path]; [done|].
  unfold train, load_or_create_feedback_json, trainer_lift, mbind, trainer_bind.
  rewrite !Htrain. simpl. rewrite Hfile. simpl. rewrite Hfile.
  unfold trained_on_schema. rewrite Hddl, <- app_assoc. simpl.
  by destruct (iterate data).
Qed.



(** X23: a record that is no dict, or whose question or corrected SQL is no
    text, stops the training: the exception leaves [train_vanna] after the
    records before it were used, and no later record is looked at. *)
Theorem train_vanna_stops_at_bad_record w kind rows path good bad rest e s :
  connects w kind ->
  schema_driver w kind = Connected (Ok rows) (Ok tt) -> rows <> [] ->
  (forall t, vn_train w t = Ok tt) ->
  truthy path = true ->
  feedback_files s !! path
  = Some (FileJson (JArr (map encoded_feedback good ++ bad :: rest))) ->
  exc_bind (get_stripped "user_question" bad) (fun _ => get_stripped "correct_sql" bad)
  = Raise e ->
  train_vanna w (Some path) s
  = (Raise e,
     TrainerState (trained (trained_on_schema rows s) ++ replayed good) (feedback_files s)).
Proof.
  intros Hconn Hschema Hrows Htrain Hpath Hfile Hbad.
  rewrite (train_vanna_with_feedback_file _ kind rows path _ s) by done. simpl.
  rewrite train_feedback_replay by done.
  unfold train_feedback; fold train_feedback.
  unfold mbind, trainer_bind, trainer_lift.
  destruct (get_stripped "user_question" bad) as [q|]; simpl in Hbad.
  - by rewrite Hbad.
  - by injection Hbad as ->.
Qed.

Lemma train_vanna_stops_at_bad_record_witness :
  train_vanna sample_training_world (Some "feedback.json")
    (TrainerState []
       {["feedback.json" :=
           FileJson (JArr [JObj [("user_question", JStr "total spend");
                                 ("correct_sql", JNull)];
                           encoded_feedback
                             (FeedbackEntry "2" "q" "select 1" "wrong" "select 3")])]})
  = (Raise "AttributeError: object has no attribute 'strip'",
     TrainerState
       [TrainDdl (ddl_of_rows sample_rows); TrainDocumentation DOCUMENTATION]
       {["feedback.json" :=
           FileJson (JArr [JObj [("user_question", JStr "total spend");
                                 ("correct_sql", JNull)];
                           encoded_feedback
                             (FeedbackEntry "2" "q" "select 1" "wrong" "select 3")])]}).
Proof.
  apply (train_vanna_stops_at_bad_record sample_training_world mysql sample_rows
           "feedback.json" []
           (JObj [("user_question", JStr "total spend"); ("correct_sql", JNull)])
           [encoded_feedback (FeedbackEntry "2" "q" "select 1" "wrong" "select 3")]).
  - by repeat split.
  - reflexivity.
  - discriminate.
  - reflexivity.
  - reflexivity.
  - reflexivity.
  - reflexivity.
Defined.


(** X28: with [DB_TYPE] unset, or set to anything but [mysql] and
    [sqlserver] in exactly this spelling, [train_vanna] raises the error of
    the connector that names the value; nothing is trained and no file is
    touched, whatever the drivers and the model would do. *)
Theorem train_vanna_unsupported_db_type w feedback_json_path s :
  DB_TYPE w <> Some "mysql" -> DB_TYPE w <> Some "sqlserver" ->
  train_vanna w feedback_json_path s = (Raise (unsupported_db_type (DB_TYPE w)), s).
Proof.
  intros Hmysql Hsqlserver.
  unfold train_vanna, DBConnector, trainer_lift, mbind, trainer_bind.
  by rewrite !bool_decide_eq_false_2.
Qed.

Lemma train_vanna_unsupported_db_type_witness :
  train_vanna
    {| DB_TYPE := Some "MySQL";
       connector_connect := fun _ => Ok tt;
       MyVanna := Ok tt;
       vn_connect := fun _ => Ok tt;
       schema_driver := fun _ => Connected (Ok sample_rows) (Ok tt);
       vn_train := fun _ => Ok tt;
       may_create := fun _ => true |}
    None (TrainerState [] ∅)
  = (Raise "Unsupported DB_TYPE 'MySQL'", TrainerState [] ∅).
Proof.
  apply (train_vanna_unsupported_db_type
           {| DB_TYPE := Some "MySQL";
              connector_connect := fun _ => Ok tt;
              MyVanna := Ok tt;
              vn_connect := fun _ => Ok tt;
              schema_driver := fun _ => Connected (Ok sample_rows) (Ok tt);
              vn_train := fun _ => Ok tt;
              may_create := fun _ => true |}); discriminate.
Defined.

(** ** The list of chats *)







Lemma endswith_app s suffix : endswith (s +:+ suffix) suffix = true.
Proof.
  induction s as [|c s IH].
  - rewrite string_app_nil_l. destruct suffix as [|a k]; [done|].
    change (endswith (String a k) (String a k))
      with (String.eqb (String a k) (String a k) || endswith k (String a k)).
    by rewrite String.eqb_refl.
  - rewrite string_app_cons. simpl. rewrite IH. apply orb_true_r.
Qed.

Lemma prefix_json_extended s :
  String.prefix ".json" s = false -> String.prefix ".json" (s +:+ ".json") = true ->
  s = "".
Proof.
  intros Hnot H. destruct s as [|c1 s]; [done|]. exfalso.
  rewrite string_app_cons in H. apply prefix_cons in H as [<- H].
  do 4 (destruct s as [|? s];
        [rewrite string_app_nil_l in H; apply prefix_cons in H as [? _]; discriminate|];
        rewrite string_app_cons in H; apply prefix_cons in H as [<- H]).
  rewrite (proj2 (prefix_app ".json" _)) in Hnot; [done|]. by exists s.
Qed.

Lemma remove_json_suffix sid :
  contains ".json" sid = false -> remove_occurrences ".json" 0 (sid +:+ ".json") = sid.
Proof.
  induction sid as [|c sid IH]; [done|].
  intros Hfree.
  change (contains ".json" (String c sid))
    with (String.prefix ".json" (String c sid) || contains ".json" sid) in Hfree.
  apply orb_false_iff in Hfree as [Hhere Hlater].
  rewrite string_app_cons.
  change (remove_occurrences ".json" 0 (String c (sid +:+ ".json")))
    with (if String.prefix ".json" (String c (sid +:+ ".json"))
          then remove_occurrences ".json" 4 (sid +:+ ".json")
          else String c (remove_occurrences ".json" 0 (sid +:+ ".json"))).
  destruct (String.prefix ".json" (String c (sid +:+ ".json"))) eqn:Hext.
  - rewrite <- string_app_cons in Hext. by apply prefix_json_extended in Hext.
  - by rewrite IH.
Qed.

(** X26: a chat saved under a session id that does not hold the text
    [.json] is listed under that very id, with the title of its file, so that
    Load and Delete look at the file that was listed. *)
Theorem read_chat_session_id sid ctime fields :
  contains ".json" sid = false ->
  is_chat_file (DirEntry (sid +:+ ".json") ctime (FileJson (JObj fields)))
  /\ read_chat (DirEntry (sid +:+ ".json") ctime (FileJson (JObj fields)))
     = Some (sid, default (JStr "Untitled Chat") (json_get "title" fields)).
Proof.
  intros Hfree. split; [apply endswith_app|].
  unfold read_chat. simpl. by rewrite remove_json_suffix.
Qed.

Lemma read_chat_session_id_witness :
  read_chat (DirEntry "7f3a.json" 10 (FileJson (encoded_session [user_message "total spend"])))
  = Some ("7f3a", JStr "total spend").
Proof.
  apply (read_chat_session_id "7f3a" 10
           [("title", JStr "total spend");
            ("messages", JArr (map encoded_message [user_message "total spend"]))]).
  reflexivity.
Defined.

(** ** Charts *)

(** X27: a chart is drawn exactly when the result has a row and a number
    column.  With a text column it is a bar chart of the first text column
    against the first number column, however many number columns there are;
    without one it is a scatter plot of the first two number columns, or a
    histogram of the only one. *)
Theorem generate_plot_from_df_chart df :
  ((exists fig, generate_plot_from_df (Some df) = PlotlyChart fig)
   <-> df_empty df = false /\ select_dtypes NumberColumn df <> [])
  /\ (forall c cs n ns,
        df_empty df = false ->
        select_dtypes ObjectColumn df = c :: cs -> select_dtypes NumberColumn df = n :: ns ->
        generate_plot_from_df (Some df) = PlotlyChart (Bar c n))
  /\ (forall n1 n2 ns,
        df_empty df = false ->
        select_dtypes ObjectColumn df = [] -> select_dtypes NumberColumn df = n1 :: n2 :: ns ->
        generate_plot_from_df (Some df) = PlotlyChart (Scatter n1 n2))
  /\ (forall n,
        df_empty df = false ->
        select_dtypes ObjectColumn df = [] -> select_dtypes NumberColumn df = [n] ->
        generate_plot_from_df (Some df) = PlotlyChart (Histogram n)).
Proof.
  unfold generate_plot_from_df. split_and!.
  - destruct (df_empty df); [split; [by intros [? ?]|by intros [? ?]]|].
    destruct (select_dtypes ObjectColumn df) as [|c cs],
             (select_dtypes NumberColumn df) as [|n1 [|n2 ns]];
      split; try (by intros [? ?]); try (by intros [_ ?]); eauto.
  - by intros c cs n ns -> -> ->.
  - by intros n1 n2 ns -> -> ->.
  - by intros n -> -> ->.
Qed.

(** ** Switching between chats *)

Lemma run_script_load w a sid msgs :
  chat_histories a !! sid = Some (FileJson (encoded_session msgs)) ->
  encodable msgs = true ->
  run_script w (ClickLoad sid) a
  = (with_messages (map stored_form msgs) (with_session_id sid a), []).
Proof.
  intros Hfile Henc. destruct a as [sid0 stg msgs0 uq sq qr uf files fb]. simpl in Hfile.
  unfold run_script, script_body, sidebar_new_chat, sidebar_manual_sql,
    sidebar_chat_history, listed, st_rerun, modify, gets, mbind, script_bind, mret,
    script_ret. simpl. rewrite Hfile. simpl.
  rewrite (load_chat_encoded sid msgs) by done. done.
Qed.

(** X29: Load of a chat that was saved makes its id the session id and its
    stored messages the message list, and shows nothing; the stage, the
    question, the SQL, the last result and the feedback text of the
    conversation that was going on are not reset, and the files and the
    feedback records stay. *)
Theorem load_keeps_conversation w a sid msgs :
  chat_histories a !! sid = Some (FileJson (encoded_session msgs)) ->
  encodable msgs = true ->
  exists a',
    run_script w (ClickLoad sid) a = (a', [])
    /\ session_id a' = sid
    /\ messages a' = map stored_form msgs
    /\ conversation a' = conversation a
    /\ chat_histories a' = chat_histories a
    /\ feedback_json a' = feedback_json a.
Proof.
  intros Hfile Henc. eexists. split; [by apply run_script_load|].
  by destruct a.
Qed.

Lemma load_keeps_conversation_witness :
  conversation
    (fst (run_script sample_world (ClickLoad "s0")
            (App "s1" ask_feedback [user_message "revenue by month"]
                 "revenue by month" "SELECT month, cost FROM x" (Some []) ""
                 {["s0" := FileJson (encoded_session sample_chat)]} None)))
  = (ask_feedback, "revenue by month", "SELECT month, cost FROM x", Some [], "").
Proof.
  destruct (load_keeps_conversation sample_world
              (App "s1" ask_feedback [user_message "revenue by month"]
                   "revenue by month" "SELECT month, cost FROM x" (Some []) ""
                   {["s0" := FileJson (encoded_session sample_chat)]} None)
              "s0" sample_chat)
    as (a' & Hrun & _ & _ & Hconv & _); [reflexivity|reflexivity|].
  rewrite Hrun. exact Hconv.
Defined.

(** X30: New Chat loses nothing that was saved: it starts a blank session
    under a fresh id and leaves the files and the feedback records alone, so
    that, when the chat in memory is the one in the file of its session,
    New Chat followed by Load of that session brings its messages back in
    their stored form. *)
Theorem new_chat_then_load w w' a :
  chat_histories a !! session_id a = Some (FileJson (encoded_session (messages a))) ->
  encodable (messages a) = true ->
  run_script w ClickNewChat a
  = (new_session (uuid4 w 0) (chat_histories a) (feedback_json a), [])
  /\ run_script w' (ClickLoad (session_id a)) (fst (run_script w ClickNewChat a))
     = (with_messages (map stored_form (messages a))
          (new_session (session_id a) (chat_histories a) (feedback_json a)), []).
Proof.
  intros Hfile Henc.
  assert (Hnew : run_script w ClickNewChat a
                 = (new_session (uuid4 w 0) (chat_histories a) (feedback_json a), [])).
  { by destruct a. }
  split; [done|]. rewrite Hnew. simpl.
  by rewrite (run_script_load w' _ (session_id a) (messages a)).
Qed.

Lemma new_chat_then_load_witness :
  messages
    (fst (run_script sample_world (ClickLoad "s1")
            (fst (run_script sample_world ClickNewChat
                    (App "s1" ask_question sample_chat "" "" None ""
                         {["s1" := FileJson (encoded_session sample_chat)]} None)))))
  = map stored_form sample_chat.
Proof.
  destruct (new_chat_then_load sample_world sample_world
              (App "s1" ask_question sample_chat "" "" None ""
                   {["s1" := FileJson (encoded_session sample_chat)]} None))
    as [_ Hload]; [reflexivity|reflexivity|].
  simpl session_id in Hload. by rewrite Hload.
Defined.
